(** * CRO test builder: sizing, duration, rubric and catalog rows

    A shallow embedding of the computational core of [src/main.py]:
    [sample_size_per_variant], [estimate_duration_weeks], [easier_total],
    [to_catalog_row], [add_to_catalog], the numbers of [validate_block],
    the specification built by [create_test_form] and the re-split of the
    joined columns done by [catalog_page].

    Conventions of the embedding.
    - A Python [float] is a binary64 number, here a primitive float of
      the kernel: the modules [Binary64], [Sizing64], [Duration64] and
      [Validate64] follow the code operation by operation, with rounding,
      NaN, infinities, the exceptions of [math.sqrt], [math.ceil], [**]
      and [/], and the conversion of an [int] operand to a double.
    - The modules [Sizing] and [Duration] read the same two functions in
      exact arithmetic, over the reals and the rationals.  They carry the
      facts about signs and order that are stated of values the code
      returns; they say nothing about which inputs make the binary64 code
      fail.
    - A Python exception is a value of [exn]; a computation that may
      raise has type [result A].  [try: ... except Exception: return None]
      is the combinator [try_except].
    - [statistics.NormalDist().inv_cdf] and the C library's [pow] belong
      to Python's library, not to the repository.  The domain check of
      [inv_cdf] ([p <= 0 or p >= 1] raises [StatisticsError]) and the
      special cases of [float_pow] are written out; the quantile itself
      and the library square are section variables.  Where a result
      depends on a value of the quantile, that value is assumed by name:
      [quantile_centred] (zero at one half) and
      [quantile_negative_at_quarter].
    - Mutable objects ([dict], [list]) live in a store indexed by
      locations; a value refers to them by location, so that sharing
      between a specification and a catalog row would be visible. *)

From Stdlib Require Import ZArith QArith Qround Qabs Reals Lra Lia Psatz.
From Stdlib Require Import String Ascii List.
From Stdlib Require Floats.
From stdpp Require Import base option list gmap strings.

(** ** Exceptions and results *)

Module Py.

Inductive exn : Set :=
| StatisticsError
| ZeroDivisionError
| ValueError
| TypeError
| AttributeError
| OverflowError.

Inductive result (A : Type) : Type :=
| Ok (a : A)
| Raise (e : exn).
Arguments Ok {A} a.
Arguments Raise {A} e.

(** Sequencing: the first exception raised ends the computation. *)
Global Instance result_bind : MBind result := fun A B k m =>
  match m with
  | Ok a => k a
  | Raise e => Raise e
  end.
Global Instance result_ret : MRet result := fun A a => Ok a.

(** [try: body  except Exception: handler] *)
Definition try_except {A} (body : result A) (handler : exn -> result A) : result A :=
  match body with
  | Ok a => Ok a
  | Raise e => handler e
  end.

Definition raises {A} (m : result A) : Prop := exists e, m = Raise e.

Lemma raises_Ok {A} (a : A) : ~ raises (Ok a).
Proof. intros [e He]. discriminate He. Qed.

Lemma raises_Raise {A} (e : exn) : raises (@Raise A e).
Proof. exists e. reflexivity. Qed.


End Py.

Import Py.

(** ** Sample size per variant in exact arithmetic (lines 88-102) *)

Module Sizing.
Local Open Scope R_scope.

(** The function of lines 88-102 with every float read as the real number
    it stands for and every operation exact.  [Sizing64] below is the
    binary64 function; this reading serves for facts about the sign of a
    returned value. *)

(** Comparisons, as booleans. *)
Definition Rltb (x y : R) : bool := if Rlt_dec x y then true else false.
Definition Rleb (x y : R) : bool := if Rle_dec x y then true else false.

(** [math.sqrt]: a negative argument raises [ValueError]. *)
Definition math_sqrt (x : R) : result R :=
  if Rltb x 0 then Raise ValueError else Ok (sqrt x).

(** Float true division: a zero divisor raises [ZeroDivisionError]. *)
Definition truediv (x y : R) : result R :=
  if Req_dec_T y 0 then Raise ZeroDivisionError else Ok (x / y).

(** [math.ceil]: the least integer not below [x]. *)
Definition math_ceil (x : R) : Z := (- Int_part (- x))%Z.

(** The guard of line 95. *)
Definition infeasible (p1 p2 mde_abs : R) : bool :=
  Rltb p2 0 || Rltb 1 p2 || Rleb p1 0 || Rleb 1 p1 || Rleb mde_abs 0.

Section WithQuantile.

(** [Phi_inv p] stands for [statistics._normal_dist_inv_cdf(p, 0.0, 1.0)]. *)
Variable Phi_inv : R -> R.

(** [NormalDist().inv_cdf(p)] with [mu = 0], [sigma = 1]. *)
Definition inv_cdf (p : R) : result R :=
  if Rleb p 0 || Rleb 1 p then Raise StatisticsError else Ok (Phi_inv p).

(** The body of the [try] block, lines 90-100. *)
Definition sample_size_body (baseline_cr mde_abs alpha power : R) : result (option Z) :=
  z_alpha_2 ← inv_cdf (1 - alpha / 2);
  z_beta ← inv_cdf power;
  let p1 := baseline_cr in
  let p2 := baseline_cr + mde_abs in
  if infeasible p1 p2 mde_abs then Ok None
  else
    let p_bar := (p1 + p2) / 2 in
    s_pooled ← math_sqrt (2 * p_bar * (1 - p_bar));
    s_unpooled ← math_sqrt (p1 * (1 - p1) + p2 * (1 - p2));
    let num := z_alpha_2 * s_pooled + z_beta * s_unpooled in
    n ← truediv (num ^ 2) ((p2 - p1) ^ 2);
    Ok (Some (math_ceil n)).

Definition sample_size_per_variant (baseline_cr mde_abs alpha power : R) : result (option Z) :=
  try_except (sample_size_body baseline_cr mde_abs alpha power) (fun _ => Ok None).

(** The closed form of the specification, section 4.2 steps 1-5, written
    from its words: the real number that is then rounded up. *)
Definition spec_n (z_alpha_2 z_beta p1 mde_abs : R) : R :=
  let p2 := p1 + mde_abs in
  let p_bar := (p1 + p2) / 2 in
  Rsqr (z_alpha_2 * sqrt (2 * p_bar * (1 - p_bar))
        + z_beta * sqrt (p1 * (1 - p1) + p2 * (1 - p2)))
  / Rsqr (p2 - p1).

End WithQuantile.

(** The numerator of the closed form, before squaring. *)
Definition spec_num (z_alpha_2 z_beta p1 mde_abs : R) : R :=
  let p2 := p1 + mde_abs in
  let p_bar := (p1 + p2) / 2 in
  z_alpha_2 * sqrt (2 * p_bar * (1 - p_bar))
  + z_beta * sqrt (p1 * (1 - p1) + p2 * (1 - p2)).

(** A stand-in quantile for closed instances of the theorems below: it is
    zero at one half, as the normal quantile is, and has nothing else in
    common with it. *)
Definition linear_quantile (p : R) : R := p - 1 / 2.

(** Two values of the normal quantile: [inv_cdf(0.5)] is [0.0] and
    [inv_cdf(0.25)] is negative (about -0.674). *)
Definition quantile_centred (f : R -> R) : Prop := f (1 / 2) = 0.
Definition quantile_negative_at_quarter (f : R -> R) : Prop := f (1 / 4) < 0.

(** *** Facts about the primitives *)

Lemma Rltb_true x y : Rltb x y = true <-> x < y.
Proof. unfold Rltb. destruct (Rlt_dec x y); split; intros; try discriminate; tauto. Qed.

Lemma Rleb_true x y : Rleb x y = true <-> x <= y.
Proof. unfold Rleb. destruct (Rle_dec x y); split; intros; try discriminate; tauto. Qed.

Lemma Rltb_false x y : Rltb x y = false <-> y <= x.
Proof. unfold Rltb. destruct (Rlt_dec x y); split; intros; try discriminate; try lra; tauto. Qed.

Lemma Rleb_false x y : Rleb x y = false <-> y < x.
Proof. unfold Rleb. destruct (Rle_dec x y); split; intros; try discriminate; try lra; tauto. Qed.

Lemma math_ceil_spec x : IZR (math_ceil x) - 1 < x <= IZR (math_ceil x).
Proof.
  unfold math_ceil. rewrite opp_IZR.
  destruct (base_Int_part (- x)) as [Hle Hgt]. lra.
Qed.

Lemma math_ceil_unique x (n : Z) : IZR n - 1 < x <= IZR n -> math_ceil x = n.
Proof.
  intros [Hlo Hhi]. destruct (math_ceil_spec x) as [Clo Chi].
  assert (H1 : (math_ceil x < n + 1)%Z) by (apply lt_IZR; rewrite plus_IZR; lra).
  assert (H2 : (n < math_ceil x + 1)%Z) by (apply lt_IZR; rewrite plus_IZR; lra).
  lia.
Qed.


Lemma math_ceil_pos x : 0 < x -> (0 < math_ceil x)%Z.
Proof.
  intros Hx. destruct (math_ceil_spec x) as [_ Hhi].
  apply lt_IZR. lra.
Qed.


Lemma infeasible_true p1 p2 m :
  infeasible p1 p2 m = true <-> p2 < 0 \/ p2 > 1 \/ p1 <= 0 \/ p1 >= 1 \/ m <= 0.
Proof.
  unfold infeasible. rewrite !orb_true_iff, !Rltb_true, !Rleb_true.
  split; intros H; decompose [or] H; lra.
Qed.

Lemma infeasible_false p1 p2 m :
  infeasible p1 p2 m = false <-> 0 <= p2 <= 1 /\ 0 < p1 < 1 /\ 0 < m.
Proof.
  unfold infeasible. rewrite !orb_false_iff, !Rltb_false, !Rleb_false. lra.
Qed.

Lemma math_sqrt_nonneg x : 0 <= x -> math_sqrt x = Ok (sqrt x).
Proof.
  intros Hx. unfold math_sqrt.
  destruct (Rltb x 0) eqn:E; [apply Rltb_true in E; lra | reflexivity].
Qed.

Lemma truediv_nonzero x y : y <> 0 -> truediv x y = Ok (x / y).
Proof. intros Hy. unfold truediv. destruct (Req_dec_T y 0); [contradiction | reflexivity]. Qed.

Section QuantileFacts.
Variable Phi_inv : R -> R.

Lemma inv_cdf_Ok p : 0 < p < 1 -> inv_cdf Phi_inv p = Ok (Phi_inv p).
Proof.
  intros Hp. unfold inv_cdf.
  destruct (Rleb p 0) eqn:E1; [apply Rleb_true in E1; lra|].
  destruct (Rleb 1 p) eqn:E2; [apply Rleb_true in E2; lra|]. reflexivity.
Qed.


(** Past the guard the two square roots and the division are defined. *)
Lemma pooled_variance_pos b m : 0 < b -> 0 < m -> b + m <= 1 ->
  0 < 2 * ((b + (b + m)) / 2) * (1 - (b + (b + m)) / 2).
Proof. intros. nra. Qed.

Lemma unpooled_variance_nonneg b m : 0 < b < 1 -> 0 <= b + m <= 1 ->
  0 <= b * (1 - b) + (b + m) * (1 - (b + m)).
Proof. intros. nra. Qed.

Lemma sample_size_body_feasible b m a p za zb :
  inv_cdf Phi_inv (1 - a / 2) = Ok za ->
  inv_cdf Phi_inv p = Ok zb ->
  infeasible b (b + m) m = false ->
  sample_size_body Phi_inv b m a p = Ok (Some (math_ceil (spec_n za zb b m))).
Proof.
  intros Ha Hp Hg. unfold sample_size_body. rewrite Ha, Hp. cbn [mbind result_bind].
  rewrite Hg. apply infeasible_false in Hg. destruct Hg as (Hp2 & Hp1 & Hm).
  rewrite !math_sqrt_nonneg
    by first [apply Rlt_le, pooled_variance_pos; lra | apply unpooled_variance_nonneg; lra].
  cbn [mbind result_bind].
  rewrite truediv_nonzero by (apply pow_nonzero; lra).
  cbn [mbind result_bind]. unfold spec_n. rewrite <- !Rsqr_pow2. reflexivity.
Qed.


End QuantileFacts.

Section SizingTheorems.
Variable Phi_inv : R -> R.


Lemma spec_n_num za zb b m : spec_n za zb b m = Rsqr (spec_num za zb b m) / Rsqr m.
Proof. unfold spec_n, spec_num. cbv zeta. do 2 f_equal. ring. Qed.

Lemma spec_n_nonneg za zb b m : 0 < m -> 0 <= spec_n za zb b m.
Proof.
  intros Hm. rewrite spec_n_num.
  apply Rmult_le_pos; [apply Rle_0_sqr|].
  apply Rlt_le, Rinv_0_lt_compat, Rlt_0_sqr. lra.
Qed.

Lemma spec_n_zero za zb b m : 0 < m -> (spec_n za zb b m = 0 <-> spec_num za zb b m = 0).
Proof.
  intros Hm. rewrite spec_n_num.
  assert (Hd : 0 < Rsqr m) by (apply Rlt_0_sqr; lra).
  split; intros H.
  - apply Rsqr_0_uniq.
    unfold Rdiv in H. apply Rmult_integral in H. destruct H as [H|H]; [exact H|].
    pose proof (Rinv_0_lt_compat _ Hd). lra.
  - rewrite H, Rsqr_0. unfold Rdiv. ring.
Qed.


(** With a quantile that is zero at one half, [alpha = 1] and
    [power = 0.5] make both quantiles zero and the result 0. *)
Lemma sample_size_zero_at_half :
  quantile_centred Phi_inv ->
  sample_size_per_variant Phi_inv (1 / 2) (1 / 10) 1 (1 / 2) = Ok (Some 0%Z).
Proof.
  intros Hc. unfold sample_size_per_variant.
  rewrite (sample_size_body_feasible Phi_inv _ _ _ _ (Phi_inv (1 - 1 / 2)) (Phi_inv (1 / 2))).
  - cbn. do 2 f_equal. apply math_ceil_unique.
    replace (1 - 1 / 2) with (1 / 2) by lra. rewrite Hc.
    rewrite spec_n_num. unfold spec_num. cbv zeta.
    rewrite !Rmult_0_l, Rplus_0_l, Rsqr_0. unfold Rdiv. rewrite Rmult_0_l.
    simpl. lra.
  - apply inv_cdf_Ok. lra.
  - apply inv_cdf_Ok. lra.
  - apply infeasible_false. lra.
Qed.

End SizingTheorems.




(** *** Raising the power can lower the result *)

Section BelowOneHalf.
Variable Phi_inv : R -> R.
Hypothesis Phi_centred : quantile_centred Phi_inv.
Hypothesis Phi_quarter : quantile_negative_at_quarter Phi_inv.

Lemma sample_size_eval b m a p :
  0 < b < 1 -> 0 < m -> b + m <= 1 -> 0 < a < 2 -> 0 < p < 1 ->
  sample_size_per_variant Phi_inv b m a p
  = Ok (Some (math_ceil (spec_n (Phi_inv (1 - a / 2)) (Phi_inv p) b m))).
Proof.
  intros Hb Hm Hp2 Ha Hp. unfold sample_size_per_variant.
  rewrite (sample_size_body_feasible Phi_inv b m a p
             (Phi_inv (1 - a / 2)) (Phi_inv p)); [reflexivity | | | ].
  - apply inv_cdf_Ok. lra.
  - apply inv_cdf_Ok. lra.
  - apply infeasible_false. lra.
Qed.

(** Below one half the quantile is negative: with [alpha = 1] the result at
    [power = 0.25] is positive, while at [power = 0.5] it is 0. *)
Lemma sample_size_positive_at_quarter :
  exists n : Z,
    sample_size_per_variant Phi_inv (1 / 2) (1 / 10) 1 (1 / 4) = Ok (Some n) /\ (0 < n)%Z.
Proof.
  rewrite sample_size_eval by lra. eexists. split; [reflexivity|].
  apply math_ceil_pos.
  pose proof (spec_n_nonneg (Phi_inv (1 - 1 / 2)) (Phi_inv (1 / 4)) (1 / 2) (1 / 10) ltac:(lra)) as Hnn.
  destruct (Req_dec (spec_n (Phi_inv (1 - 1 / 2)) (Phi_inv (1 / 4)) (1 / 2) (1 / 10)) 0)
    as [Hz | Hnz]; [|lra].
  exfalso. apply spec_n_zero in Hz; [|lra].
  unfold spec_num in Hz. cbv zeta in Hz.
  replace (1 - 1 / 2) with (1 / 2) in Hz by lra. rewrite Phi_centred in Hz.
  rewrite Rmult_0_l, Rplus_0_l in Hz.
  apply Rmult_integral in Hz. destruct Hz as [Hz | Hz].
  - unfold quantile_negative_at_quarter in Phi_quarter. lra.
  - apply sqrt_eq_0 in Hz; lra.
Qed.

End BelowOneHalf.

(** Nothing restricts [alpha] and [power]: as soon as the quantile is zero
    at one half and negative at one quarter, with [alpha = 1] raising
    [power] from 0.25 to 0.5 lowers the result from a positive integer
    to 0. *)
Lemma sample_size_monotone_counterexample :
  ~ (exists Phi_inv : R -> R,
       quantile_centred Phi_inv /\ quantile_negative_at_quarter Phi_inv /\
       forall (b m m' a p p' : R) (n n_mde n_power : Z),
         0 < b < 1 -> 0 < m -> m <= m' -> 0 < b + m' < 1 -> p <= p' ->
         sample_size_per_variant Phi_inv b m a p = Ok (Some n) ->
         sample_size_per_variant Phi_inv b m' a p = Ok (Some n_mde) ->
         sample_size_per_variant Phi_inv b m a p' = Ok (Some n_power) ->
         (n_mde <= n)%Z /\ (n <= n_power)%Z).
Proof.
  intros (Phi_inv & Hc & Hq & H).
  destruct (sample_size_positive_at_quarter Phi_inv Hc Hq) as (n & Hn & Hpos).
  pose proof (sample_size_zero_at_half Phi_inv Hc) as H0.
  specialize (H (1 / 2) (1 / 10) (1 / 10) 1 (1 / 4) (1 / 2) n n 0%Z).
  destruct H as [_ H]; try assumption; try lra. lia.
Qed.

End Sizing.

(** ** Binary64 *)

Module Binary64.
Export Floats.
Local Open Scope float_scope.

(** The exact value of a specification-level float; zero, infinities and
    NaN are given 0. *)
Definition SF2Q (x : spec_float) : Q :=
  match x with
  | S754_finite s m e =>
      ((if s then -1 else 1) * inject_Z (Z.pos m) * Qpower 2 e)%Q
  | _ => 0%Q
  end.

(** The exact value of a finite double. *)
Definition exact (x : float) : Q := SF2Q (Prim2SF x).

(** Neither NaN nor an infinity. *)
Definition finite (x : float) : bool :=
  match Prim2SF x with
  | S754_zero _ | S754_finite _ _ _ => true
  | _ => false
  end.

(** [math.sqrt]: NaN gives NaN, any other argument below zero raises
    [ValueError]. *)
Definition math_sqrt (x : float) : result float :=
  if x <? 0 then Raise ValueError else Ok (sqrt x).

(** Float true division: a zero divisor, of either sign, raises
    [ZeroDivisionError]; nothing else does. *)
Definition truediv (x y : float) : result float :=
  if y =? 0 then Raise ZeroDivisionError else Ok (x / y).

(** [math.ceil] of a float: the least integer not below it; NaN raises
    [ValueError] and an infinity [OverflowError]. *)
Definition math_ceil (x : float) : result Z :=
  match Prim2SF x with
  | S754_nan => Raise ValueError
  | S754_infinity _ => Raise OverflowError
  | sf => Ok (Qceiling (SF2Q sf))
  end.

Section WithPow.

(** [libm_pow2 x] stands for the outcome of [float_pow] on a finite base
    [x] other than 0 and 1 with exponent [2.0]: the call of the C library's
    [pow] and the check of [errno] that follows it, which raises
    [OverflowError] on a range error. *)
Variable libm_pow2 : float -> result float.

(** [x ** 2] for a float [x]: the cases [float_pow] settles itself, then
    the C library on the absolute value. *)
Definition float_pow2 (x : float) : result float :=
  match Prim2SF x with
  | S754_nan => Ok x
  | S754_infinity _ => Ok infinity
  | S754_zero _ => Ok 0
  | S754_finite _ _ _ =>
      if abs x =? 1 then Ok 1 else libm_pow2 (abs x)
  end.

End WithPow.

Lemma eqb_zero (x : float) : (x =? 0) = true <-> exists s, Prim2SF x = S754_zero s.
Proof.
  rewrite FloatAxioms.eqb_spec. change (Prim2SF 0) with (S754_zero false).
  destruct (Prim2SF x) as [s| s| |s m e]; cbn.
  - split; eauto.
  - split; [destruct s; discriminate | intros [s' H]; discriminate H].
  - split; [discriminate | intros [s' H]; discriminate H].
  - split; [destruct s; discriminate | intros [s' H]; discriminate H].
Qed.

Lemma float_pow2_zero pow (x : float) : (x =? 0) = true -> float_pow2 pow x = Ok 0.
Proof. intros H. apply eqb_zero in H. destruct H as [s H]. unfold float_pow2. rewrite H. reflexivity. Qed.

Lemma truediv_zero (x y : float) : (y =? 0) = true -> truediv x y = Raise ZeroDivisionError.
Proof. intros H. unfold truediv. rewrite H. reflexivity. Qed.

Lemma math_ceil_Ok (x : float) (n : Z) :
  math_ceil x = Ok n <-> finite x = true /\ n = Qceiling (exact x).
Proof.
  unfold math_ceil, finite, exact. destruct (Prim2SF x); split;
    try (intros [= <-]; split; reflexivity);
    try (intros [_ ->]; reflexivity);
    try discriminate; intros [H _]; discriminate H.
Qed.

Lemma math_ceil_raises (x : float) : raises (math_ceil x) <-> finite x = false.
Proof.
  unfold math_ceil, finite. destruct (Prim2SF x); split;
    try reflexivity; try discriminate;
    try (intros _; apply raises_Raise); intros H; destruct (raises_Ok _ H).
Qed.

Lemma inject_Z_pred (n : Z) : inject_Z (n - 1) = (inject_Z n - 1)%Q.
Proof. unfold Z.sub. rewrite inject_Z_plus, inject_Z_opp. reflexivity. Qed.

(** The least integer not below [q] is the one within one above it. *)
Lemma Qceiling_unique (q : Q) (n : Z) :
  (inject_Z n - 1 < q /\ q <= inject_Z n)%Q <-> n = Qceiling q.
Proof.
  pose proof (Qle_ceiling q) as Hhi. pose proof (Qceiling_lt q) as Hlo.
  rewrite inject_Z_pred in Hlo.
  split.
  - intros [Nlo Nhi].
    assert (H1 : (n - 1 < Qceiling q)%Z).
    { rewrite Zlt_Qlt, inject_Z_pred. lra. }
    assert (H2 : (Qceiling q - 1 < n)%Z).
    { rewrite Zlt_Qlt, inject_Z_pred. lra. }
    lia.
  - intros ->. split; assumption.
Qed.

End Binary64.

(** ** Sample size per variant in binary64 (lines 88-102) *)

Module Sizing64.
Import Binary64.
Local Open Scope float_scope.

(** The guard of line 95; every comparison with NaN is false. *)
Definition infeasible (p1 p2 mde_abs : float) : bool :=
  (p2 <? 0) || (1 <? p2) || (p1 <=? 0) || (1 <=? p1) || (mde_abs <=? 0).

(** The doubles nearest to 0.05, 0.8 and 1e-17. *)
Definition d0_05 : float := 0x1.999999999999ap-5.
Definition d0_8 : float := 0x1.999999999999ap-1.
Definition d1e_17 : float := 0x1.70ef54646d497p-57.

(** Stand-ins for the two library routines in closed instances: they are
    defined on all doubles, and have nothing else in common with the
    normal quantile and the C library's [pow]. *)
Definition linear_quantile (p : float) : float := p - 0.5.
Definition product_square (x : float) : result float := Ok (x * x).

Section WithLibrary.

(** [Phi_inv p] stands for [statistics._normal_dist_inv_cdf(p, 0.0, 1.0)]
    and [libm_pow2] for the C library's square, see [float_pow2]. *)
Variable Phi_inv : float -> float.
Variable libm_pow2 : float -> result float.

(** [NormalDist().inv_cdf(p)] with [mu = 0.0], [sigma = 1.0]. *)
Definition inv_cdf (p : float) : result float :=
  if (p <=? 0) || (1 <=? p) then Raise StatisticsError else Ok (Phi_inv p).

(** The body of the [try] block, lines 90-100. *)
Definition sample_size_body (baseline_cr mde_abs alpha power : float)
  : result (option Z) :=
  z_alpha_2 ← inv_cdf (1 - alpha / 2);
  z_beta ← inv_cdf power;
  let p1 := baseline_cr in
  let p2 := baseline_cr + mde_abs in
  if infeasible p1 p2 mde_abs then Ok None
  else
    let p_bar := (p1 + p2) / 2 in
    s_pooled ← math_sqrt (2 * p_bar * (1 - p_bar));
    s_unpooled ← math_sqrt (p1 * (1 - p1) + p2 * (1 - p2));
    let num := z_alpha_2 * s_pooled + z_beta * s_unpooled in
    num_sq ← float_pow2 libm_pow2 num;
    diff_sq ← float_pow2 libm_pow2 (p2 - p1);
    n ← truediv num_sq diff_sq;
    c ← math_ceil n;
    Ok (Some c).

Definition sample_size_per_variant (baseline_cr mde_abs alpha power : float)
  : result (option Z) :=
  try_except (sample_size_body baseline_cr mde_abs alpha power) (fun _ => Ok None).

(** The closed form of the specification, section 4.2 steps 1-5, written
    from its words and evaluated in binary64, one operation after the
    other: the number that is then rounded up, where there is one. *)
Definition spec_n (z_alpha_2 z_beta p1 mde_abs : float) : result float :=
  let p2 := p1 + mde_abs in
  let p_bar := (p1 + p2) / 2 in
  r_pooled ← math_sqrt (2 * p_bar * (1 - p_bar));
  r_unpooled ← math_sqrt (p1 * (1 - p1) + p2 * (1 - p2));
  numerator ← float_pow2 libm_pow2 (z_alpha_2 * r_pooled + z_beta * r_unpooled);
  denominator ← float_pow2 libm_pow2 (p2 - p1);
  truediv numerator denominator.

(** The closed form has no value: its evaluation raises, or ends in NaN or
    an infinity. *)
Definition no_value (x : result float) : Prop :=
  raises x \/ exists y, x = Ok y /\ finite y = false.

(** *** The shape of a call *)

Lemma inv_cdf_cases p : inv_cdf p = Ok (Phi_inv p) \/ raises (inv_cdf p).
Proof.
  unfold inv_cdf. destruct ((p <=? 0) || (1 <=? p)); [right; apply raises_Raise | left; reflexivity].
Qed.

(** Past the two quantiles and the guard, the call evaluates the closed
    form and rounds it up. *)
Lemma sample_size_body_past_guard b m a p za zb :
  inv_cdf (1 - a / 2) = Ok za ->
  inv_cdf p = Ok zb ->
  infeasible b (b + m) m = false ->
  sample_size_body b m a p = (x ← spec_n za zb b m; c ← math_ceil x; Ok (Some c)).
Proof.
  intros Ha Hp Hg. unfold sample_size_body, spec_n. rewrite Ha, Hp.
  cbn [mbind result_bind]. rewrite Hg. cbv zeta.
  destruct (math_sqrt (2 * _ * _)) as [s1|]; cbn [mbind result_bind]; [|reflexivity].
  destruct (math_sqrt (_ + _)) as [s2|]; cbn [mbind result_bind]; [|reflexivity].
  destruct (float_pow2 _ (_ + _)) as [n2|]; cbn [mbind result_bind]; [|reflexivity].
  destruct (float_pow2 _ (_ - _)) as [d2|]; cbn [mbind result_bind]; reflexivity.
Qed.

Lemma sample_size_feasible_cases b m a p za zb :
  inv_cdf (1 - a / 2) = Ok za ->
  inv_cdf p = Ok zb ->
  infeasible b (b + m) m = false ->
  (no_value (spec_n za zb b m) /\ sample_size_per_variant b m a p = Ok None) \/
  (exists x, spec_n za zb b m = Ok x /\ finite x = true /\
             sample_size_per_variant b m a p = Ok (Some (Qceiling (exact x)))).
Proof.
  intros Ha Hp Hg. unfold sample_size_per_variant.
  rewrite (sample_size_body_past_guard _ _ _ _ _ _ Ha Hp Hg).
  destruct (spec_n za zb b m) as [x|e] eqn:Hx; cbn [mbind result_bind try_except].
  - destruct (finite x) eqn:Hf.
    + right. exists x. split; [reflexivity|]. split; [exact Hf|].
      assert (Hc : math_ceil x = Ok (Qceiling (exact x))) by (apply math_ceil_Ok; auto).
      rewrite Hc. reflexivity.
    + left. split; [right; eauto|].
      apply math_ceil_raises in Hf. destruct Hf as [e ->]. reflexivity.
  - left. split; [left; apply raises_Raise | reflexivity].
Qed.

Lemma sample_size_infeasible b m a p :
  infeasible b (b + m) m = true -> sample_size_per_variant b m a p = Ok None.
Proof.
  intros Hg. unfold sample_size_per_variant, sample_size_body.
  destruct (inv_cdf (1 - a / 2)); cbn [mbind result_bind try_except]; [|reflexivity].
  destruct (inv_cdf p); cbn [mbind result_bind try_except]; [|reflexivity].
  rewrite Hg. reflexivity.
Qed.

Lemma sample_size_quantile_fails b m a p :
  raises (inv_cdf (1 - a / 2)) \/ raises (inv_cdf p) ->
  sample_size_per_variant b m a p = Ok None.
Proof.
  unfold sample_size_per_variant, sample_size_body. intros [[e ->] | [e ->]].
  - reflexivity.
  - destruct (inv_cdf (1 - a / 2)); reflexivity.
Qed.

(** When [p2 - p1] is zero, the closed form divides by zero. *)
Lemma spec_n_zero_difference za zb b m :
  (b + m - b =? 0) = true -> raises (spec_n za zb b m).
Proof.
  intros Hz. unfold spec_n. cbv zeta.
  destruct (math_sqrt (2 * _ * _)) as [s1|]; cbn [mbind result_bind]; [|apply raises_Raise].
  destruct (math_sqrt (_ + _)) as [s2|]; cbn [mbind result_bind]; [|apply raises_Raise].
  destruct (float_pow2 _ (_ + _)) as [n2|]; cbn [mbind result_bind]; [|apply raises_Raise].
  rewrite (float_pow2_zero _ _ Hz). cbn [mbind result_bind].
  rewrite truediv_zero by reflexivity. apply raises_Raise.
Qed.

Lemma sample_size_zero_difference b m a p :
  (b + m - b =? 0) = true -> sample_size_per_variant b m a p = Ok None.
Proof.
  intros Hz.
  destruct (inv_cdf_cases (1 - a / 2)) as [Ha | Ha];
    [|apply sample_size_quantile_fails; auto].
  destruct (inv_cdf_cases p) as [Hp | Hp];
    [|apply sample_size_quantile_fails; auto].
  destruct (infeasible b (b + m) m) eqn:Hg; [apply sample_size_infeasible; exact Hg|].
  destruct (sample_size_feasible_cases _ _ _ _ _ _ Ha Hp Hg) as [[_ H] | (x & Hx & _)];
    [exact H|].
  destruct (spec_n_zero_difference (Phi_inv (1 - a / 2)) (Phi_inv p) b m Hz) as [e He].
  rewrite He in Hx. discriminate Hx.
Qed.

Lemma guard_fires_iff p1 p2 m :
  infeasible p1 p2 m = true <->
  (p2 <? 0) = true \/ (1 <? p2) = true \/ (p1 <=? 0) = true \/ (1 <=? p1) = true \/
  (m <=? 0) = true.
Proof. unfold infeasible. rewrite !orb_true_iff. tauto. Qed.

(** What it takes for the closed form to have no value, step by step. *)
Lemma spec_n_no_value_iff za zb b m :
  let p2 := b + m in
  let p_bar := (b + p2) / 2 in
  let pooled := 2 * p_bar * (1 - p_bar) in
  let unpooled := b * (1 - b) + p2 * (1 - p2) in
  let num := za * sqrt pooled + zb * sqrt unpooled in
  no_value (spec_n za zb b m) <->
  (pooled <? 0) = true \/ (unpooled <? 0) = true \/
  raises (float_pow2 libm_pow2 num) \/
  raises (float_pow2 libm_pow2 (p2 - b)) \/
  (exists d, float_pow2 libm_pow2 (p2 - b) = Ok d /\ (d =? 0) = true) \/
  (exists n d, float_pow2 libm_pow2 num = Ok n /\
               float_pow2 libm_pow2 (p2 - b) = Ok d /\
               (d =? 0) = false /\ finite (n / d) = false).
Proof.
  cbv zeta. unfold no_value, spec_n, math_sqrt, truediv. cbv zeta.
  destruct (2 * _ * _ <? 0) eqn:E1; cbn [mbind result_bind].
  { split; [auto | intros _; left; apply raises_Raise]. }
  destruct (_ + _ <? 0) eqn:E2; cbn [mbind result_bind].
  { split; [auto | intros _; left; apply raises_Raise]. }
  destruct (float_pow2 libm_pow2 (_ + _)) as [n|e] eqn:E3; cbn [mbind result_bind].
  2:{ split; [intros _; right; right; left; apply raises_Raise
             | intros _; left; apply raises_Raise]. }
  destruct (float_pow2 libm_pow2 (_ - _)) as [d|e] eqn:E4; cbn [mbind result_bind].
  2:{ split; [intros _; right; right; right; left; apply raises_Raise
             | intros _; left; apply raises_Raise]. }
  destruct (d =? 0) eqn:E5.
  { split; [intros _; do 4 right; left; eauto | intros _; left; apply raises_Raise]. }
  split.
  - intros [Hr | (y & [= <-] & Hy)]; [destruct (raises_Ok _ Hr)|].
    do 5 right. exists n, d. auto.
  - intros [H | [H | [H | [H | [(d' & [= <-] & H) | (n' & d' & [= <-] & [= <-] & _ & H)]]]]];
      try discriminate H; try (destruct (raises_Ok _ H)); try congruence.
    right. eauto.
Qed.

Lemma no_value_Ok_finite x : finite x = true -> ~ no_value (Ok x).
Proof.
  intros Hf [H | (y & [= <-] & Hy)]; [exact (raises_Ok _ H) | congruence].
Qed.

(** C1, as amended. [sample_size_per_variant] raises no exception.  It
    returns [None] exactly when the guard of line 95 fires, one of the two
    [inv_cdf] calls raises, or the binary64 evaluation of the closed form
    has no value: a step of lines 97-99 raises, or the quotient is NaN or
    an infinity, on which [math.ceil] raises ([spec_n_no_value_iff] lists
    the steps).  It returns an integer otherwise.  One such failure: when [baseline_cr + mde_abs -
    baseline_cr] is [0.0], as it is for an [mde_abs] that the sum absorbs,
    line 99 divides by zero and the result is [None]. *)
Theorem sample_size_total_and_none_iff (b m a p : float) :
  let guard :=
    (b + m <? 0) = true \/ (1 <? b + m) = true \/ (b <=? 0) = true \/
    (1 <=? b) = true \/ (m <=? 0) = true in
  let quantile_fails := raises (inv_cdf (1 - a / 2)) \/ raises (inv_cdf p) in
  let formula_fails := no_value (spec_n (Phi_inv (1 - a / 2)) (Phi_inv p) b m) in
  ~ raises (sample_size_per_variant b m a p) /\
  (sample_size_per_variant b m a p = Ok None
   <-> guard \/ quantile_fails \/ formula_fails) /\
  (~ (guard \/ quantile_fails \/ formula_fails) ->
   exists n : Z, sample_size_per_variant b m a p = Ok (Some n)) /\
  ((b + m - b =? 0) = true -> sample_size_per_variant b m a p = Ok None).
Proof.
  cbv zeta. rewrite <- guard_fires_iff.
  assert (Hnone : forall r : result (option Z), r = Ok None -> ~ raises r)
    by (intros r ->; apply raises_Ok).
  split; [|split; [|split]]; [| | |apply sample_size_zero_difference].
  all: destruct (inv_cdf_cases (1 - a / 2)) as [Ha | Ha].
  all: try (pose proof (sample_size_quantile_fails b m a p (or_introl Ha)) as H;
            first [ apply Hnone; exact H | split; tauto | tauto ]).
  all: destruct (inv_cdf_cases p) as [Hp | Hp].
  all: try (pose proof (sample_size_quantile_fails b m a p (or_intror Hp)) as H;
            first [ apply Hnone; exact H | split; tauto | tauto ]).
  all: destruct (infeasible b (b + m) m) eqn:Hg.
  all: try (pose proof (sample_size_infeasible b m a p Hg) as H;
            first [ apply Hnone; exact H | split; tauto | tauto ]).
  all: assert (Hqa : ~ raises (inv_cdf (1 - a / 2))) by (rewrite Ha; apply raises_Ok).
  all: assert (Hqp : ~ raises (inv_cdf p)) by (rewrite Hp; apply raises_Ok).
  all: destruct (sample_size_feasible_cases _ _ _ _ _ _ Ha Hp Hg)
         as [[Hnv H] | (x & Hx & Hf & H)].
  - apply Hnone; exact H.
  - rewrite H. apply raises_Ok.
  - split; tauto.
  - rewrite H, Hx. split; [discriminate|].
    intros [Hc | [Hc | Hc]]; [discriminate Hc | tauto |].
    destruct (no_value_Ok_finite x Hf Hc).
  - tauto.
  - intros _. eauto.
Qed.

(** C2, as amended. Past the guard of line 95 and with both quantiles
    defined, the call returns [n] exactly when the binary64 evaluation of
    the closed form of section 4.2 ends in a finite [x] and [n] is [x]
    rounded up to the next integer ([n - 1 < x <= n]); it returns [None]
    exactly when that evaluation has no value. *)
Theorem sample_size_closed_form (b m a p za zb : float) :
  infeasible b (b + m) m = false ->
  inv_cdf (1 - a / 2) = Ok za ->
  inv_cdf p = Ok zb ->
  (forall n : Z,
     sample_size_per_variant b m a p = Ok (Some n) <->
     exists x, spec_n za zb b m = Ok x /\ finite x = true /\
               (inject_Z n - 1 < exact x /\ exact x <= inject_Z n)%Q) /\
  (sample_size_per_variant b m a p = Ok None <-> no_value (spec_n za zb b m)).
Proof.
  intros Hg Ha Hp.
  destruct (sample_size_feasible_cases _ _ _ _ _ _ Ha Hp Hg)
    as [[Hnv H] | (x & Hx & Hf & H)]; rewrite H.
  - split; [|tauto]. intros n. split; [discriminate|].
    intros (x & Hx & Hf & _). exfalso. rewrite Hx in Hnv.
    exact (no_value_Ok_finite x Hf Hnv).
  - split.
    + intros n. split.
      * intros [= <-]. exists x. split; [exact Hx|]. split; [exact Hf|].
        apply Qceiling_unique. reflexivity.
      * intros (y & Hy & _ & Hn). rewrite Hx in Hy. injection Hy as <-.
        apply Qceiling_unique in Hn. rewrite Hn. reflexivity.
    + split; [discriminate|]. intros Hnv. exfalso. rewrite Hx in Hnv.
      exact (no_value_Ok_finite x Hf Hnv).
Qed.

End WithLibrary.

(** An effect of 1e-17 on a baseline of 0.5 is lost in the sum. *)
Lemma absorbed_effect : (0.5 + d1e_17 - 0.5 =? 0) = true.
Proof. vm_compute. reflexivity. Qed.

(** C2 at baseline 0.25, effect 0.125, alpha 0.0625 and power 0.75. *)
Lemma sample_size_closed_form_witness :
  (forall n : Z,
     sample_size_per_variant linear_quantile product_square 0.25 0.125 0.0625 0.75
     = Ok (Some n) <->
     exists x,
       spec_n product_square (linear_quantile (1 - 0.0625 / 2)) (linear_quantile 0.75)
         0.25 0.125 = Ok x /\
       finite x = true /\
       (inject_Z n - 1 < exact x /\ exact x <= inject_Z n)%Q) /\
  (sample_size_per_variant linear_quantile product_square 0.25 0.125 0.0625 0.75
   = Ok None <->
   no_value (spec_n product_square (linear_quantile (1 - 0.0625 / 2))
               (linear_quantile 0.75) 0.25 0.125)).
Proof.
  apply (sample_size_closed_form linear_quantile product_square 0.25 0.125 0.0625 0.75);
    vm_compute; reflexivity.
Defined.

(** C1 fails as stated, whatever the quantile and the square: at baseline
    0.5, effect 1e-17, alpha 0.05 and power 0.8 no guard fires and both
    quantiles are defined, and the call returns [None]. *)
Lemma sample_size_none_iff_counterexample :
  ~ (exists (Phi_inv : float -> float) (libm_pow2 : float -> result float),
       forall b m a p : float,
         sample_size_per_variant Phi_inv libm_pow2 b m a p = Ok None <->
         ((b + m <? 0) = true \/ (1 <? b + m) = true \/ (b <=? 0) = true \/
          (1 <=? b) = true \/ (m <=? 0) = true) \/
         raises (inv_cdf Phi_inv (1 - a / 2)) \/ raises (inv_cdf Phi_inv p)).
Proof.
  intros (Phi_inv & pow & H).
  destruct (H 0.5 d1e_17 d0_05 d0_8) as [Hto _].
  specialize (Hto (sample_size_zero_difference Phi_inv pow 0.5 d1e_17 d0_05 d0_8 absorbed_effect)).
  destruct Hto as [Hg | [Hq | Hq]].
  - decompose [or] Hg; match goal with E : _ = true |- _ => vm_compute in E; discriminate E end.
  - apply (raises_Ok (Phi_inv (1 - d0_05 / 2))). exact Hq.
  - apply (raises_Ok (Phi_inv d0_8)). exact Hq.
Qed.

(** C2 fails as stated, whatever the quantile and the square: the same
    input is inside the claim's ranges and the call returns no integer. *)
Lemma sample_size_closed_form_counterexample :
  ~ (exists (Phi_inv : float -> float) (libm_pow2 : float -> result float),
       forall b m a p : float,
         (0 <? b) = true -> (b <? 1) = true -> (0 <? m) = true ->
         (0 <=? b + m) = true -> (b + m <=? 1) = true ->
         ~ raises (inv_cdf Phi_inv (1 - a / 2)) -> ~ raises (inv_cdf Phi_inv p) ->
         exists n : Z, sample_size_per_variant Phi_inv libm_pow2 b m a p = Ok (Some n)).
Proof.
  intros (Phi_inv & pow & H).
  destruct (H 0.5 d1e_17 d0_05 d0_8) as [n Hn]; try (vm_compute; reflexivity).
  - apply (raises_Ok (Phi_inv (1 - d0_05 / 2))).
  - apply (raises_Ok (Phi_inv d0_8)).
  - rewrite (sample_size_zero_difference Phi_inv pow 0.5 d1e_17 d0_05 d0_8 absorbed_effect) in Hn.
    discriminate Hn.
Qed.

(** *** Order in binary64 *)

(** Inside the ranges of the validation form the result can drop when the
    power rises: the library quantile is not increasing from one double
    to the next.  The three values assumed of the quantile are those that
    [inv_cdf] returns for 0.975, 0.7394675131046371 and the double after
    it; the square is taken as the correctly rounded product.  Baseline
    0.09945578414589383, effect 0.0021201281020226605, alpha 0.05. *)
Lemma power_step_lowers_result (Phi_inv : float -> float) :
  let b := 0x1.975ef2c4dfd7fp-4 in
  let m := 0x1.15e3b1b918df1p-9 in
  let p := 0x1.7a9b7c627a4cep-1 in
  let p' := 0x1.7a9b7c627a4cfp-1 in
  Phi_inv 0x1.f333333333333p-1 = 0x1.f5c0331eeff82p+0 ->
  Phi_inv p = 0x1.488d82d185310p-1 ->
  Phi_inv p' = 0x1.488d82d18530fp-1 ->
  (p <? p') = true /\
  sample_size_per_variant Phi_inv product_square b m d0_05 p = Ok (Some 272294%Z) /\
  sample_size_per_variant Phi_inv product_square b m d0_05 p' = Ok (Some 272293%Z).
Proof.
  cbv zeta. intros Ha Hp Hp'. split; [reflexivity|].
  unfold sample_size_per_variant, sample_size_body, inv_cdf.
  change (1 - d0_05 / 2) with 0x1.f333333333333p-1.
  rewrite Ha, Hp, Hp'. split; vm_compute; reflexivity.
Qed.

End Sizing64.

(** ** Duration in weeks in exact arithmetic (lines 104-115) *)

Module Duration.
Local Open Scope Q_scope.

(** The function of lines 104-115 with the allocation read as a rational
    and every operation exact.  [Duration64] below is the binary64
    function; this reading serves for the order between two returned
    estimates, and its rounding to the nearest integer is shared. *)

(** Rounding to the nearest integer, a tie going to the even neighbour,
    which is what [round] does on the exact value of its argument. *)
Definition round_half_even (q : Q) : Z :=
  let f := Qfloor q in
  match Qcompare (q - inject_Z f) (1 # 2) with
  | Lt => f
  | Gt => (f + 1)%Z
  | Eq => if Z.even f then f else (f + 1)%Z
  end.

(** [round(x, 2)], the result in lowest terms. *)
Definition round2 (x : Q) : Q := Qred (inject_Z (round_half_even (x * 100)) / 100).

(** True division: a zero divisor raises [ZeroDivisionError]. *)
Definition truediv_q (x y : Q) : result Q :=
  if Qeq_bool y 0 then Raise ZeroDivisionError else Ok (x / y).

(** The body of the [try] block, lines 106-113. *)
Definition duration_body (weekly_sessions variants sample_per_variant : Z)
    (allocation : Q) : result (option Q) :=
  if (weekly_sessions <=? 0)%Z || (variants <=? 0)%Z || (sample_per_variant <=? 0)%Z
  then Ok None
  else
    let total_required := (sample_per_variant * variants)%Z in
    let effective_weekly := inject_Z weekly_sessions * allocation in
    if Qle_bool effective_weekly 0 then Ok None
    else
      weeks ← truediv_q (inject_Z total_required) effective_weekly;
      Ok (Some (round2 weeks)).

Definition estimate_duration_weeks (weekly_sessions variants sample_per_variant : Z)
    (allocation : Q) : result (option Q) :=
  try_except (duration_body weekly_sessions variants sample_per_variant allocation)
             (fun _ => Ok None).

(** *** Rounding *)

Lemma round_half_even_near (q : Q) : Qabs (inject_Z (round_half_even q) - q) <= 1 # 2.
Proof.
  unfold round_half_even.
  pose proof (Qfloor_le q) as Hlo. pose proof (Qlt_floor q) as Hhi.
  rewrite inject_Z_plus in Hhi. change (inject_Z 1) with 1 in Hhi.
  apply Qabs_Qle_condition.
  destruct (Qcompare_spec (q - inject_Z (Qfloor q)) (1 # 2)) as [He | Hl | Hg].
  - destruct (Z.even (Qfloor q)); rewrite ?inject_Z_plus;
      change (inject_Z 1) with 1; lra.
  - lra.
  - rewrite inject_Z_plus. change (inject_Z 1) with 1. lra.
Qed.

(** *** The estimator *)


End Duration.

(** ** Duration in weeks in binary64 (lines 104-115) *)

Module Duration64.
Import Binary64.
Local Open Scope float_scope.

(** An [int] as an operand of float arithmetic: the nearest double, a tie
    going to the even one; [OverflowError] when that would be an
    infinity. *)
Definition int_to_float (z : Z) : result float :=
  match binary_normalize prec emax z 0 false with
  | S754_infinity _ => Raise OverflowError
  | sf => Ok (SF2Prim sf)
  end.

(** The double nearest to [k / 100]; [s] is the sign of a zero. *)
Definition hundredths (s : bool) (k : Z) : float :=
  SF2Prim
    match k with
    | Z0 => S754_zero s
    | Zpos p => SFdiv prec emax (S754_finite false p 0) (S754_finite false 100 0)
    | Zneg p => SFdiv prec emax (S754_finite true p 0) (S754_finite false 100 0)
    end.

(** [round(x, 2)]: NaN and the infinities are returned as they are; a
    finite [x] goes to the nearest decimal with two places, a tie (on the
    exact value of [x]) to the even one, and from there to the nearest
    double. *)
Definition round2 (x : float) : float :=
  match Prim2SF x with
  | S754_nan | S754_infinity _ => x
  | S754_zero s => hundredths s 0
  | S754_finite s m e =>
      hundredths s (Duration.round_half_even (SF2Q (S754_finite s m e) * 100))
  end.

(** The body of the [try] block, lines 106-113. *)
Definition duration_body (weekly_sessions variants sample_per_variant : Z)
    (allocation : float) : result (option float) :=
  if (weekly_sessions <=? 0)%Z || (variants <=? 0)%Z || (sample_per_variant <=? 0)%Z
  then Ok None
  else
    let total_required := (sample_per_variant * variants)%Z in
    ws ← int_to_float weekly_sessions;
    let effective_weekly := ws * allocation in
    if effective_weekly <=? 0 then Ok None
    else
      total ← int_to_float total_required;
      weeks ← truediv total effective_weekly;
      Ok (Some (round2 weeks)).

Definition estimate_duration_weeks (weekly_sessions variants sample_per_variant : Z)
    (allocation : float) : result (option float) :=
  try_except (duration_body weekly_sessions variants sample_per_variant allocation)
             (fun _ => Ok None).

(** *** Rounding *)

Lemma round2_nearest_hundredth (x : float) :
  finite x = true ->
  exists (s : bool) (k : Z),
    round2 x = hundredths s k /\
    k = Duration.round_half_even (exact x * 100) /\
    (Qabs (inject_Z k - exact x * 100) <= 1 # 2)%Q.
Proof.
  unfold finite, round2, exact. destruct (Prim2SF x) as [s| s| |s m e]; try discriminate.
  - intros _. exists s, 0%Z. split; [reflexivity|]. split; [reflexivity|].
    vm_compute. discriminate.
  - intros _. eexists s, _. split; [reflexivity|]. split; [reflexivity|].
    apply Duration.round_half_even_near.
Qed.

(** 107/40 is a tie in exact arithmetic; its double lies below, and the
    code answers 2.67.  1/200 lies above its tie, 0.01. *)
Lemma round2_below_tie : round2 (107 / 40) = 0x1.55c28f5c28f5cp+1.
Proof. vm_compute. reflexivity. Qed.

Lemma round2_above_tie : round2 (1 / 200) = 0x1.47ae147ae147bp-7.
Proof. vm_compute. reflexivity. Qed.

(** *** The estimator *)

Lemma leb_zero_of_eqb (x : float) : (x =? 0) = true -> (x <=? 0) = true.
Proof.
  intros H. apply eqb_zero in H. destruct H as [s H].
  rewrite leb_spec, H. reflexivity.
Qed.

Lemma truediv_positive (x y : float) : (y <=? 0) = false -> truediv x y = Ok (x / y).
Proof.
  intros H. unfold truediv. destruct (y =? 0) eqn:E; [|reflexivity].
  apply leb_zero_of_eqb in E. congruence.
Qed.

Lemma integer_guard_iff (ws v spv : Z) :
  (ws <=? 0)%Z || (v <=? 0)%Z || (spv <=? 0)%Z = true
  <-> (ws <= 0)%Z \/ (v <= 0)%Z \/ (spv <= 0)%Z.
Proof. rewrite !orb_true_iff, !Z.leb_le. tauto. Qed.

(** The ways past the integer guard. *)
Lemma estimate_cases (ws v spv : Z) (alloc : float) :
  (ws <=? 0)%Z || (v <=? 0)%Z || (spv <=? 0)%Z = false ->
  (raises (int_to_float ws) /\ estimate_duration_weeks ws v spv alloc = Ok None) \/
  (exists fws, int_to_float ws = Ok fws /\
     ((fws * alloc <=? 0) = true /\ estimate_duration_weeks ws v spv alloc = Ok None \/
      (fws * alloc <=? 0) = false /\
      (raises (int_to_float (spv * v)) /\
       estimate_duration_weeks ws v spv alloc = Ok None \/
       exists total, int_to_float (spv * v) = Ok total /\
         estimate_duration_weeks ws v spv alloc
         = Ok (Some (round2 (total / (fws * alloc))))))).
Proof.
  intros Hg. unfold estimate_duration_weeks, duration_body. rewrite Hg.
  destruct (int_to_float ws) as [fws|e]; cbn [mbind result_bind try_except];
    [right | left; split; [apply raises_Raise | reflexivity]].
  exists fws. split; [reflexivity|].
  destruct (fws * alloc <=? 0) eqn:He; [left; split; reflexivity | right; split; [reflexivity|]].
  destruct (int_to_float (spv * v)) as [total|e]; cbn [mbind result_bind try_except];
    [right | left; split; [apply raises_Raise | reflexivity]].
  exists total. split; [reflexivity|].
  rewrite (truediv_positive _ _ He). reflexivity.
Qed.

(** C5, as amended. [estimate_duration_weeks] raises no exception.  It
    returns [None] exactly when [weekly_sessions], [variants] or
    [sample_per_variant] is not positive, when the double of
    [weekly_sessions] times [allocation] is at most zero, or when
    [weekly_sessions] or [sample_per_variant * variants] is too large for
    a double.  Otherwise it returns [round(q, 2)] of the binary64 quotient
    [q] of the double of [sample_per_variant * variants] by the binary64
    product of the double of [weekly_sessions] and [allocation]; for a
    finite [q] that is the double nearest to [k / 100], where [k] is the
    integer nearest to [100 * q], the even one at a tie, so at most one
    half away from it.
    [estimate_duration_weeks(1000, 2, 500, 1.0)] is 1.0 and with
    [weekly_sessions = 0] the result is [None]. *)
Theorem estimate_duration_weeks_spec (ws v spv : Z) (alloc : float) :
  let guard := (ws <= 0)%Z \/ (v <= 0)%Z \/ (spv <= 0)%Z in
  let no_volume := exists fws, int_to_float ws = Ok fws /\ (fws * alloc <=? 0) = true in
  let too_large := raises (int_to_float ws) \/ raises (int_to_float (spv * v)) in
  ~ raises (estimate_duration_weeks ws v spv alloc) /\
  (estimate_duration_weeks ws v spv alloc = Ok None
   <-> guard \/ no_volume \/ too_large) /\
  (forall fws total,
     ~ guard -> int_to_float ws = Ok fws -> (fws * alloc <=? 0) = false ->
     int_to_float (spv * v) = Ok total ->
     estimate_duration_weeks ws v spv alloc = Ok (Some (round2 (total / (fws * alloc))))) /\
  (forall q, finite q = true ->
     exists (s : bool) (k : Z),
       round2 q = hundredths s k /\
       k = Duration.round_half_even (exact q * 100) /\
       (Qabs (inject_Z k - exact q * 100) <= 1 # 2)%Q) /\
  estimate_duration_weeks 1000 2 500 1 = Ok (Some 1) /\
  estimate_duration_weeks 0 v spv alloc = Ok None.
Proof.
  cbv zeta. rewrite <- integer_guard_iff.
  split; [|split; [|split; [|split; [exact round2_nearest_hundredth|split]]]].
  5: reflexivity.
  4: vm_compute; reflexivity.
  all: destruct ((ws <=? 0)%Z || (v <=? 0)%Z || (spv <=? 0)%Z) eqn:Hg.
  all: try (assert (H : estimate_duration_weeks ws v spv alloc = Ok None)
              by (unfold estimate_duration_weeks, duration_body; rewrite Hg; reflexivity)).
  - rewrite H. apply raises_Ok.
  - destruct (estimate_cases ws v spv alloc Hg)
      as [[_ H] | (fws & _ & [[_ H] | [_ [[_ H] | (t & _ & H)]]])];
      rewrite H; apply raises_Ok.
  - tauto.
  - destruct (estimate_cases ws v spv alloc Hg)
      as [[Hr H] | (fws & Hws & [[He H] | [He [[Hr H] | (t & Ht & H)]]])];
      rewrite H.
    + tauto.
    + split; [|intros _; reflexivity]. intros _. right. left. eauto.
    + tauto.
    + split; [discriminate|]. intros [Hc | [(f & Hf & Hle) | [Hr | Hr]]].
      * discriminate Hc.
      * rewrite Hws in Hf. injection Hf as <-. congruence.
      * rewrite Hws in Hr. destruct (raises_Ok _ Hr).
      * rewrite Ht in Hr. destruct (raises_Ok _ Hr).
  - intros fws total Hn. exfalso. apply Hn. apply integer_guard_iff. exact Hg.
  - intros fws total _ Hws He Ht.
    destruct (estimate_cases ws v spv alloc Hg)
      as [[Hr H] | (f & Hf & [[He' H] | [He' [[Hr H] | (t & Ht' & H)]]])].
    + rewrite Hws in Hr. destruct (raises_Ok _ Hr).
    + rewrite Hws in Hf. injection Hf as <-. congruence.
    + rewrite Ht in Hr. destruct (raises_Ok _ Hr).
    + rewrite Hws in Hf. injection Hf as <-. rewrite Ht in Ht'. injection Ht' as <-.
      exact H.
Qed.

(** C5 fails as stated: with [weekly_sessions = 10**400], two variants,
    500 per variant and the whole traffic, every argument is positive and
    the call returns [None]: the integer has no double. *)
Lemma estimate_duration_weeks_counterexample :
  ~ (forall (ws v spv : Z) (alloc : float),
       (0 < ws)%Z -> (0 < v)%Z -> (0 < spv)%Z -> (0 <? alloc) = true ->
       exists w, estimate_duration_weeks ws v spv alloc = Ok (Some w)).
Proof.
  intros H. destruct (H (10 ^ 400)%Z 2%Z 500%Z 1) as [w Hw]; try reflexivity.
  vm_compute in Hw. discriminate Hw.
Qed.

(** X19. The quotient is rounded as a double, not as a fraction: 107/40 is
    halfway between 2.67 and 2.68, its double lies below, and the result
    is 2.67, not the even neighbour 2.68; 1/200 is halfway between 0.00
    and 0.01, its double lies above, and the result is 0.01; and at
    (3, 2, 10**14 + 1) the result is the double nearest to
    66666666666667.34, more than 0.005 from the exact quotient. *)
Theorem duration_rounds_the_double :
  estimate_duration_weeks 40 1 107 1 = Ok (Some 0x1.55c28f5c28f5cp+1) /\
  estimate_duration_weeks 200 1 1 1 = Ok (Some 0x1.47ae147ae147bp-7) /\
  estimate_duration_weeks 3 2 (10 ^ 14 + 1) 1
  = Ok (Some (hundredths false 6666666666666734)) /\
  (1 # 200 < Qabs (exact (hundredths false 6666666666666734)
                   - inject_Z (2 * (10 ^ 14 + 1)) / 3))%Q.
Proof.
  split; [|split; [|split]]; vm_compute; reflexivity.
Qed.

End Duration64.

(** ** The numbers of the validation block (lines 85-86, 345-352) *)

Module Validate64.
Import Binary64 Sizing64 Duration64.
Local Open Scope float_scope.

(** Lines 85-86. *)
Definition mde_from_relative (baseline_cr relative_lift_pct : float) : float :=
  baseline_cr * (relative_lift_pct / 100).

(** The radio button of line 345 with the number entered below it. *)
Inductive mde_mode : Type :=
| Relative (rel : float)
| Absolute (mde_abs : float).

(** Lines 347-351. *)
Definition resolve_mde (baseline_cr : float) (mode : mde_mode) : float :=
  match mode with
  | Relative rel => mde_from_relative baseline_cr rel
  | Absolute mde_abs => mde_abs
  end.

(** [n_per_variant or 0] *)
Definition or_zero (n : option Z) : Z :=
  match n with
  | Some z => if (z =? 0)%Z then 0%Z else z
  | None => 0%Z
  end.

Section WithLibrary.
Variable Phi_inv : float -> float.
Variable libm_pow2 : float -> result float.

(** The two computed cells of [results]: the sample size per variant and
    the duration, before they are formatted.  The widgets' values and the
    two fields read from the specification are the arguments. *)
Definition validate_core (baseline_cr : float) (weekly_sessions variants : Z)
    (alpha power : float) (mode : mde_mode) (allocation : float)
  : result (option Z * option float) :=
  let mde_abs := resolve_mde baseline_cr mode in
  n_per_variant ← sample_size_per_variant Phi_inv libm_pow2 baseline_cr mde_abs alpha power;
  weeks ← estimate_duration_weeks weekly_sessions variants
            (or_zero n_per_variant) allocation;
  Ok (n_per_variant, weeks).

Lemma sample_size_returns b m a p :
  exists n, sample_size_per_variant Phi_inv libm_pow2 b m a p = Ok n.
Proof.
  unfold sample_size_per_variant.
  destruct (sample_size_body Phi_inv libm_pow2 b m a p); cbn; eauto.
Qed.

Lemma estimate_returns ws v spv alloc :
  exists w, estimate_duration_weeks ws v spv alloc = Ok w.
Proof.
  unfold estimate_duration_weeks.
  destruct (duration_body ws v spv alloc); cbn; eauto.
Qed.

(** What a returned duration tells about the arguments, and back. *)
Lemma estimate_Some_iff (ws v spv : Z) (alloc : float) :
  (exists w, estimate_duration_weeks ws v spv alloc = Ok (Some w)) <->
  (0 < ws)%Z /\ (0 < v)%Z /\ (0 < spv)%Z /\
  exists fws total,
    int_to_float ws = Ok fws /\ (fws * alloc <=? 0) = false /\
    int_to_float (spv * v) = Ok total.
Proof.
  destruct ((ws <=? 0)%Z || (v <=? 0)%Z || (spv <=? 0)%Z) eqn:Hg.
  - assert (H : estimate_duration_weeks ws v spv alloc = Ok None)
      by (unfold estimate_duration_weeks, duration_body; rewrite Hg; reflexivity).
    apply integer_guard_iff in Hg. rewrite H. split.
    + intros [w Hw]. discriminate Hw.
    + intros (? & ? & ? & _). lia.
  - assert (Hpos : (0 < ws)%Z /\ (0 < v)%Z /\ (0 < spv)%Z).
    { rewrite !orb_false_iff, !Z.leb_gt in Hg. tauto. }
    destruct (estimate_cases ws v spv alloc Hg)
      as [[Hr H] | (fws & Hws & [[He H] | [He [[Hr H] | (t & Ht & H)]]])];
      rewrite H; split.
    + intros [w Hw]. discriminate Hw.
    + intros (_ & _ & _ & f & t & Hf & _). rewrite Hf in Hr. destruct (raises_Ok _ Hr).
    + intros [w Hw]. discriminate Hw.
    + intros (_ & _ & _ & f & t & Hf & Hle & _).
      rewrite Hws in Hf. injection Hf as <-. congruence.
    + intros [w Hw]. discriminate Hw.
    + intros (_ & _ & _ & f & t & _ & _ & Hf). rewrite Hf in Hr. destruct (raises_Ok _ Hr).
    + intros _. destruct Hpos as (? & ? & ?). repeat (split; [assumption|]). eauto.
    + intros _. eauto.
Qed.

Lemma sample_size_nonpositive_baseline b m a p :
  (b <=? 0) = true -> sample_size_per_variant Phi_inv libm_pow2 b m a p = Ok None.
Proof.
  intros Hb. apply sample_size_infeasible.
  unfold infeasible. rewrite Hb, !orb_true_r. reflexivity.
Qed.

(** X5. The validation block computes its two numbers without raising.
    A duration is present exactly when the sample size is a positive
    integer, the weekly sessions and the variants are positive, the
    weekly sessions and the required total have doubles, and the
    effective weekly volume is not at most zero (so never beside a sample
    size shown as not computable).  With a baseline rate of 0 or less, the
    form's default, neither number is present. *)
Theorem validate_core_cells (baseline_cr : float) (weekly_sessions variants : Z)
    (alpha power : float) (mode : mde_mode) (allocation : float) :
  exists (n : option Z) (weeks : option float),
    validate_core baseline_cr weekly_sessions variants alpha power mode allocation
    = Ok (n, weeks) /\
    (is_Some weeks <->
     exists (k : Z) (fws total : float),
       n = Some k /\ (0 < k)%Z /\ (0 < weekly_sessions)%Z /\ (0 < variants)%Z /\
       int_to_float weekly_sessions = Ok fws /\
       (fws * allocation <=? 0) = false /\
       int_to_float (k * variants) = Ok total) /\
    ((baseline_cr <=? 0) = true -> n = None /\ weeks = None).
Proof.
  unfold validate_core.
  destruct (sample_size_returns baseline_cr (resolve_mde baseline_cr mode) alpha power)
    as [n Hn].
  destruct (estimate_returns weekly_sessions variants (or_zero n) allocation)
    as [weeks Hw].
  exists n, weeks. rewrite Hn. cbn [mbind result_bind]. rewrite Hw.
  cbn [mbind result_bind]. split; [reflexivity|].
  assert (Hoz : forall k, n = Some k -> (0 < k)%Z -> or_zero n = k).
  { intros k -> Hk. cbn [or_zero]. destruct (Z.eqb_spec k 0); [lia | reflexivity]. }
  assert (Hoz' : (0 < or_zero n)%Z -> n = Some (or_zero n)).
  { destruct n as [k|]; cbn [or_zero]; [|lia].
    destruct (Z.eqb_spec k 0); [lia | reflexivity]. }
  split.
  - split.
    + intros [w ->].
      destruct (proj1 (estimate_Some_iff _ _ _ _) (ex_intro _ w Hw))
        as (Pws & Pv & Pk & fws & total & Hws & He & Ht).
      exists (or_zero n), fws, total. auto 10.
    + intros (k & fws & total & Hk & Pk & Pws & Pv & Hws & He & Ht).
      rewrite (Hoz k Hk Pk) in Hw.
      destruct (proj2 (estimate_Some_iff weekly_sessions variants k allocation))
        as [w Hw'].
      { repeat (split; [assumption|]). eauto. }
      rewrite Hw' in Hw. injection Hw as <-. eauto.
  - intros Hb.
    rewrite (sample_size_nonpositive_baseline _ _ _ _ Hb) in Hn. injection Hn as <-.
    split; [reflexivity|]. cbn [or_zero] in Hw.
    destruct weeks as [w|]; [|reflexivity].
    destruct (proj1 (estimate_Some_iff _ _ _ _) (ex_intro _ w Hw)) as (_ & _ & Hk & _).
    lia.
Qed.

End WithLibrary.

End Validate64.

(** ** Python values, dictionaries and the object store *)

Module Data.
Local Open Scope string_scope.

(** A location names a mutable object (a [dict] or a [list]); immutable
    values are carried inline. *)
Definition loc := positive.

Inductive val : Type :=
| VNone
| VBool (b : bool)
| VInt (z : Z)
| VFloat (q : Q)
| VStr (s : string)
| VRef (l : loc).

(** A [dict] with string keys, in insertion order. *)
Definition dict := list (string * val).

Inductive obj : Type :=
| ODict (d : dict)
| OList (items : list val).

(** [d.get(k)] *)
Fixpoint dict_get (k : string) (d : dict) : option val :=
  match d with
  | [] => None
  | (k', v) :: d' => if String.eqb k k' then Some v else dict_get k d'
  end.

(** [d[k] = v]: an existing key keeps its place, a new one goes last. *)
Fixpoint dict_set (k : string) (v : val) (d : dict) : dict :=
  match d with
  | [] => [(k, v)]
  | (k', v') :: d' =>
      if String.eqb k k' then (k, v) :: d' else (k', v') :: dict_set k v d'
  end.

(** [d.get(k, dflt)] *)
Definition get_default (k : string) (dflt : val) (d : dict) : val :=
  default dflt (dict_get k d).

(** *** Strings *)

(** A [str] is read as a sequence of code points below 256, one
    character each; strings with other characters are outside the
    model. *)

(** White space as [str.strip] sees it: the Unicode white space below 256,
    that is the code points 9 to 13, 28 to 32, 133 and 160. *)
Definition is_space (a : ascii) : bool :=
  let n := nat_of_ascii a in
  (Nat.leb 9 n && Nat.leb n 13) || (Nat.leb 28 n && Nat.leb n 32)
  || Nat.eqb n 133 || Nat.eqb n 160.

(** White space as [int] skips it around the digits: the code points 9 to
    13 and 32, and, of those from 127 on, the Unicode white space (133 and
    160).  The separators 28 to 31 are not skipped. *)
Definition is_int_space (a : ascii) : bool :=
  let n := nat_of_ascii a in
  (Nat.leb 9 n && Nat.leb n 13) || Nat.eqb n 32 || Nat.eqb n 133 || Nat.eqb n 160.

Fixpoint lstrip (s : string) : string :=
  match s with
  | EmptyString => EmptyString
  | String a s' => if is_space a then lstrip s' else s
  end.

Fixpoint rstrip (s : string) : string :=
  match s with
  | EmptyString => EmptyString
  | String a s' =>
      match rstrip s' with
      | EmptyString => if is_space a then EmptyString else String a EmptyString
      | r => String a r
      end
  end.

(** [s.strip()] *)
Definition strip (s : string) : string := rstrip (lstrip s).

(** [s.split(sep)] for a one-character separator: never an empty list. *)
Fixpoint split (sep : ascii) (s : string) : list string :=
  match s with
  | EmptyString => [EmptyString]
  | String a s' =>
      if Ascii.eqb a sep then EmptyString :: split sep s'
      else match split sep s' with
           | piece :: rest => String a piece :: rest
           | [] => [String a EmptyString]
           end
  end.

(** [sep.join(items)] *)
Definition join (sep : string) (items : list string) : string := String.concat sep items.

(** The characters of a string, as iterating over it yields them. *)
Fixpoint chars (s : string) : list string :=
  match s with
  | EmptyString => []
  | String a s' => String a EmptyString :: chars s'
  end.

(** *** [int(...)] *)

Definition is_digit (a : ascii) : bool :=
  let n := nat_of_ascii a in Nat.leb 48 n && Nat.leb n 57.

Definition digit_value (a : ascii) : Z := Z.of_nat (nat_of_ascii a) - 48.

(** Decimal digits, a single underscore allowed between two digits. *)
Fixpoint parse_digits (acc : Z) (after_digit : bool) (s : string) : option Z :=
  match s with
  | EmptyString => if after_digit then Some acc else None
  | String a s' =>
      if is_digit a then parse_digits (acc * 10 + digit_value a) true s'
      else if Ascii.eqb a "_" && after_digit then parse_digits acc false s'
      else None
  end.

Fixpoint skip_leading (s : string) : string :=
  match s with
  | EmptyString => EmptyString
  | String a s' => if is_int_space a then skip_leading s' else s
  end.

Fixpoint skip_trailing (s : string) : string :=
  match s with
  | EmptyString => EmptyString
  | String a s' =>
      match skip_trailing s' with
      | EmptyString => if is_int_space a then EmptyString else String a EmptyString
      | r => String a r
      end
  end.

(** [int(s)] for a string: white space around, an optional sign, digits. *)
Definition parse_int (s : string) : option Z :=
  match skip_trailing (skip_leading s) with
  | String "+" r => parse_digits 0 false r
  | String "-" r => Z.opp <$> parse_digits 0 false r
  | r => parse_digits 0 false r
  end.

(** [int(x)] towards zero for a float. *)
Definition truncate (q : Q) : Z := if Qle_bool 0 q then Qfloor q else Qceiling q.

Definition py_int (v : val) : result Z :=
  match v with
  | VNone => Raise TypeError
  | VBool b => Ok (if b then 1%Z else 0%Z)
  | VInt z => Ok z
  | VFloat q => Ok (truncate q)
  | VStr s => match parse_int s with Some z => Ok z | None => Raise ValueError end
  | VRef _ => Raise TypeError
  end.

End Data.

Import Data.

(** ** The six-factor total (lines 82-83) *)

Module Rubric.
Local Open Scope string_scope.
Local Open Scope Z_scope.

Definition EASIER_COMPONENTS : list string :=
  ["Evidence"; "Alignment"; "Speed"; "Impact"; "Effort"; "Reality"].

(** [sum(int(easier.get(k, 0)) for k in ks)], the running total in [acc]. *)
Fixpoint sum_coerced (easier : dict) (ks : list string) (acc : Z) : result Z :=
  match ks with
  | [] => Ok acc
  | k :: ks' =>
      x ← py_int (get_default k (VInt 0) easier);
      sum_coerced easier ks' (acc + x)
  end.

Definition easier_total (easier : dict) : result Z :=
  sum_coerced easier EASIER_COMPONENTS 0.

(** A scores mapping whose values are all integers. *)
Definition int_dict (scores : list (string * Z)) : dict :=
  (fun kv => (kv.1, VInt kv.2)) <$> scores.

(** The value bound to a factor, 0 when the factor is absent. *)
Fixpoint score_of (scores : list (string * Z)) (k : string) : Z :=
  match scores with
  | [] => 0
  | (k', z) :: rest => if String.eqb k k' then z else score_of rest k
  end.

(** *** Facts about dictionaries *)

Lemma dict_get_set_eq k v d : dict_get k (dict_set k v d) = Some v.
Proof.
  induction d as [|[k' v'] d IH]; simpl.
  - rewrite String.eqb_refl. reflexivity.
  - destruct (String.eqb k k') eqn:E; simpl; rewrite ?String.eqb_refl, ?E; auto.
Qed.

Lemma dict_get_set_ne k k' v d : k <> k' -> dict_get k' (dict_set k v d) = dict_get k' d.
Proof.
  intros Hne. induction d as [|[k0 v0] d IH]; simpl.
  - destruct (String.eqb k' k) eqn:E; [apply String.eqb_eq in E; congruence | reflexivity].
  - destruct (String.eqb k k0) eqn:E; simpl.
    + apply String.eqb_eq in E. subst k0.
      destruct (String.eqb k' k) eqn:E'; [apply String.eqb_eq in E'; congruence | reflexivity].
    + destruct (String.eqb k' k0); auto.
Qed.

Lemma get_default_int_dict scores k :
  get_default k (VInt 0) (int_dict scores) = VInt (score_of scores k).
Proof.
  unfold get_default. induction scores as [|[k' z] scores IH]; simpl; [reflexivity|].
  destruct (String.eqb k k'); [reflexivity | exact IH].
Qed.

Lemma sum_coerced_agree d d' ks acc :
  (forall k, k ∈ ks -> dict_get k d = dict_get k d') ->
  sum_coerced d ks acc = sum_coerced d' ks acc.
Proof.
  revert acc. induction ks as [|k ks IH]; intros acc H; simpl; [reflexivity|].
  unfold get_default. rewrite (H k) by apply list_elem_of_here.
  destruct (py_int _); simpl; [|reflexivity].
  apply IH. intros k' Hk'. apply H. apply list_elem_of_further. exact Hk'.
Qed.

Lemma sum_coerced_raises d ks acc k :
  k ∈ ks -> raises (py_int (get_default k (VInt 0) d)) -> raises (sum_coerced d ks acc).
Proof.
  revert acc. induction ks as [|k0 ks IH]; intros acc Hin Hr.
  - inversion Hin.
  - simpl. apply elem_of_cons in Hin. destruct Hin as [-> | Hin].
    + destruct Hr as [e ->]. apply raises_Raise.
    + destruct (py_int (get_default k0 (VInt 0) d)); simpl.
      * apply IH; assumption.
      * apply raises_Raise.
Qed.

(** C6. On a scores mapping with integer values, [easier_total] is the sum
    over the six fixed factor names of the value bound to the name, 0 for
    an absent name; binding a key outside the six changes nothing; the
    empty mapping totals 0 and six fives total 30. *)
Theorem easier_total_sum (scores : list (string * Z)) :
  easier_total (int_dict scores)
  = Ok (score_of scores "Evidence" + score_of scores "Alignment"
        + score_of scores "Speed" + score_of scores "Impact"
        + score_of scores "Effort" + score_of scores "Reality") /\
  (forall (k : string) (v : val), k ∉ EASIER_COMPONENTS ->
     easier_total (dict_set k v (int_dict scores)) = easier_total (int_dict scores)) /\
  easier_total [] = Ok 0 /\
  easier_total (int_dict [("Evidence", 5); ("Alignment", 5); ("Speed", 5);
                          ("Impact", 5); ("Effort", 5); ("Reality", 5)]) = Ok 30.
Proof.
  split; [|split; [|split]].
  - unfold easier_total, EASIER_COMPONENTS. cbn [sum_coerced].
    rewrite !get_default_int_dict. cbn [py_int mbind result_bind].
    f_equal.
  - intros k v Hk. unfold easier_total. apply sum_coerced_agree.
    intros k' Hk'. apply dict_get_set_ne. intros ->. contradiction.
  - reflexivity.
  - reflexivity.
Qed.

(** C10. A factor bound to the empty string makes [easier_total] raise:
    [int("")] is a [ValueError], and nothing in [easier_total] catches it. *)
Theorem easier_total_raises_on_blank (easier : dict) (k : string) :
  k ∈ EASIER_COMPONENTS ->
  dict_get k easier = Some (VStr "") ->
  raises (easier_total easier).
Proof.
  intros Hk Hget. unfold easier_total. apply (sum_coerced_raises _ _ _ k Hk).
  unfold get_default. rewrite Hget. apply raises_Raise.
Qed.

Lemma easier_total_raises_on_blank_witness :
  raises (easier_total [("Evidence", VStr ""); ("Alignment", VInt 3)]).
Proof.
  apply (easier_total_raises_on_blank _ "Evidence").
  - apply list_elem_of_here.
  - reflexivity.
Defined.

(** X20. A score given as a string of digits counts with its value, with
    blanks, tabs or line ends around it; the separators 28 to 31, which
    [str.strip] removes, are not skipped by [int] and make [easier_total]
    raise.  Every character [int] skips is one [str.strip] removes, and
    the separators are the only others. *)
Theorem easier_total_string_scores :
  easier_total [("Evidence", VStr " 5 "); ("Speed", VStr "4")] = Ok 9 /\
  raises (easier_total [("Evidence", VStr (String (ascii_of_nat 28) "5"))]) /\
  strip (String (ascii_of_nat 28) "5") = "5"%string /\
  (forall a, is_int_space a = true -> is_space a = true) /\
  (forall a, is_space a = true -> is_int_space a = false ->
     (28 <= nat_of_ascii a <= 31)%nat).
Proof.
  split; [reflexivity|]. split; [exists ValueError; reflexivity|].
  split; [reflexivity|]. split.
  - intros [[] [] [] [] [] [] [] []]; vm_compute; intros H; first [exact H | reflexivity].
  - intros [[] [] [] [] [] [] [] []]; vm_compute; intros H1 H2;
      first [discriminate H1 | discriminate H2 | lia].
Qed.

End Rubric.

(** ** Catalog rows (lines 117-145, 187-189, 426) *)

Module Catalog.
Import Rubric.
Local Open Scope string_scope.

Definition SECONDARY_KPIS : list string :=
  ["RTA Form Completes (Lead Form Submits)";
   "RTA Form Starts (Lead Form Starts)";
   "CTA Click-through Rate";
   "Page-to-Form CTR";
   "Bounce Rate";
   "Time to First Input";
   "Scroll Depth 50%+";
   "Phone Clicks";
   "Pageviews";
   "Avg. Time on Page"].

(** The receiver of a [.get] call: anything but a [dict] has no such
    method.  A location outside the store does not occur in a running
    program; it is treated like a value without the method. *)
Definition as_dict (h : gmap loc obj) (v : val) : result dict :=
  match v with
  | VRef l => match h !! l with
              | Some (ODict d) => Ok d
              | _ => Raise AttributeError
              end
  | _ => Raise AttributeError
  end.

(** [form.get(k, {})], ready for a [.get] of its own. *)
Definition get_dict (h : gmap loc obj) (form : dict) (k : string) : result dict :=
  match dict_get k form with
  | None => Ok []
  | Some v => as_dict h v
  end.

(** The items [str.join] receives from an iterable; each must be a [str]. *)
Fixpoint str_items (items : list val) : result (list string) :=
  match items with
  | [] => Ok []
  | VStr s :: rest => ss ← str_items rest; Ok (s :: ss)
  | _ :: _ => Raise TypeError
  end.

Definition iter_strings (h : gmap loc obj) (v : val) : result (list string) :=
  match v with
  | VStr s => Ok (chars s)
  | VRef l => match h !! l with
              | Some (OList items) => str_items items
              | Some (ODict d) => Ok (d.*1)
              | None => Raise TypeError
              end
  | _ => Raise TypeError
  end.

(** [", ".join(form.get(k, []))] *)
Definition join_field (h : gmap loc obj) (form : dict) (k : string) : result val :=
  match dict_get k form with
  | None => Ok (VStr "")
  | Some v => items ← iter_strings h v; Ok (VStr (join ", " items))
  end.

(** Truth value of an object. *)
Definition truthy (h : gmap loc obj) (v : val) : bool :=
  match v with
  | VNone => false
  | VBool b => b
  | VInt z => negb (z =? 0)%Z
  | VFloat q => negb (Qeq_bool q 0)
  | VStr s => negb (String.eqb s "")
  | VRef l => match h !! l with
              | Some (ODict []) | Some (OList []) => false
              | _ => true
              end
  end.

(** [form.get(k) or ""] *)
Definition get_or_blank (h : gmap loc obj) (form : dict) (k : string) : val :=
  let v := get_default k VNone form in
  if truthy h v then v else VStr "".

(** [form.get("easier", {}).get(k, "")] *)
Definition easier_cell (h : gmap loc obj) (form : dict) (k : string) : result val :=
  easier ← get_dict h form "easier"; Ok (get_default k (VStr "") easier).

Definition to_catalog_row (h : gmap loc obj) (form_data : val) : result dict :=
  form ← as_dict h form_data;
  easier ← get_dict h form "easier";
  easier_sum ← easier_total easier;
  secondary ← join_field h form "secondary_kpis";
  evidence ← easier_cell h form "Evidence";
  alignment ← easier_cell h form "Alignment";
  speed ← easier_cell h form "Speed";
  impact ← easier_cell h form "Impact";
  effort ← easier_cell h form "Effort";
  reality ← easier_cell h form "Reality";
  test_type ← join_field h form "test_types";
  Ok [("Test ID", get_default "test_id" (VStr "") form);
      ("Test Name", get_default "test_name" (VStr "") form);
      ("Hypothesis", get_default "hypothesis" (VStr "") form);
      ("Primary KPI", get_default "primary_kpi" (VStr "") form);
      ("Secondary KPIs", secondary);
      ("Baseline Traffic (Weekly)", get_or_blank h form "weekly_sessions");
      ("Current Conversion Rate", get_or_blank h form "baseline_cr");
      ("Baseline Sample Size", get_or_blank h form "baseline_sample_size");
      ("Audience / Placement", get_default "audience_placement" (VStr "") form);
      ("EASIER - Evidence", evidence);
      ("EASIER - Alignment", alignment);
      ("EASIER - Speed", speed);
      ("EASIER - Impact", impact);
      ("EASIER - Effort", effort);
      ("EASIER - Reality", reality);
      ("EASIER Total", VInt easier_sum);
      ("Notes", get_default "notes" (VStr "") form);
      ("Test Type", test_type);
      ("Funnel Stage", get_default "funnel_stage" (VStr "") form);
      ("Owner", get_default "owner" (VStr "") form);
      ("Status", get_default "status" (VStr "") form);
      ("Start", get_default "start_date" (VStr "") form);
      ("End", get_default "end_date" (VStr "") form);
      ("Page URL(s)", get_default "page_urls" (VStr "") form);
      ("Variant Summary", get_default "variant_summary" (VStr "") form)].

(** [st.session_state]: the objects of the session and the catalog list,
    which holds the locations of its rows. *)
Record session : Type := { heap : gmap loc obj; catalog : list loc }.

(** The row is a new [dict], stored at a location not in use. *)
Definition add_to_catalog (st : session) (form_data : val) : result session :=
  row ← to_catalog_row (heap st) form_data;
  let l := fresh (dom (heap st)) in
  Ok {| heap := <[l := ODict row]> (heap st); catalog := catalog st ++ [l] |}.

(** Line 426: [[x.strip() for x in s.split(",") if x.strip()]]. *)
Definition resplit (s : string) : list string :=
  List.filter (fun x => negb (String.eqb x "")) (strip <$> split "," s).





(** A string without the separator. *)
Fixpoint no_sep (c : ascii) (s : string) : bool :=
  match s with
  | EmptyString => true
  | String a s' => negb (Ascii.eqb a c) && no_sep c s'
  end.

(** A name that survives the comma join: not empty, no comma inside, no
    white space at either end. *)
Definition clean (s : string) : bool :=
  negb (String.eqb s "") && no_sep "," s && String.eqb (strip s) s.


Definition is_ref (v : val) : bool :=
  match v with VRef _ => true | _ => false end.

(** The fields a row copies as they are. *)
Definition SCALAR_FIELDS : list string :=
  ["test_id"; "test_name"; "hypothesis"; "primary_kpi"; "weekly_sessions";
   "baseline_cr"; "baseline_sample_size"; "audience_placement"; "notes";
   "funnel_stage"; "owner"; "status"; "start_date"; "end_date"; "page_urls";
   "variant_summary"].

(** The fields a row copies under [form.get(k, "")], with their columns. *)
Definition COPIED_FIELDS : list (string * string) :=
  [("test_id", "Test ID"); ("test_name", "Test Name"); ("hypothesis", "Hypothesis");
   ("primary_kpi", "Primary KPI"); ("audience_placement", "Audience / Placement");
   ("notes", "Notes"); ("funnel_stage", "Funnel Stage"); ("owner", "Owner");
   ("status", "Status"); ("start_date", "Start"); ("end_date", "End");
   ("page_urls", "Page URL(s)"); ("variant_summary", "Variant Summary")].

(** As in the data model: the scalar fields of the specification and the
    scores of its rubric are strings and numbers, not containers. *)
Definition scalars_inline (h : gmap loc obj) (form_data : val) : Prop :=
  forall form, as_dict h form_data = Ok form ->
    (forall k v, k ∈ SCALAR_FIELDS -> dict_get k form = Some v -> is_ref v = false) /\
    (forall easier k v, get_dict h form "easier" = Ok easier ->
       dict_get k easier = Some v -> is_ref v = false).

(** A multi-valued field as the form fills it: absent, or a list of strings. *)
Definition string_list_field (h : gmap loc obj) (form : dict) (k : string) : Prop :=
  dict_get k form = None \/
  exists (l : loc) (items : list string),
    dict_get k form = Some (VRef l) /\ h !! l = Some (OList (VStr <$> items)).

(** A specification as the data model has it: a mapping whose rubric, if
    any, is a mapping with integer scores and whose two multi-valued
    fields are lists of strings.  Nothing is asked of the other fields. *)
Definition well_formed_spec (h : gmap loc obj) (form_data : val) : Prop :=
  exists form easier,
    as_dict h form_data = Ok form /\
    get_dict h form "easier" = Ok easier /\
    (forall k, k ∈ EASIER_COMPONENTS -> exists z, get_default k (VInt 0) easier = VInt z) /\
    string_list_field h form "secondary_kpis" /\
    string_list_field h form "test_types".

(** Lines 431-438: the rubric of the specification rebuilt from a row. *)
Definition form_like_easier (row : dict) : dict :=
  [("Evidence", get_default "EASIER - Evidence" (VStr "") row);
   ("Alignment", get_default "EASIER - Alignment" (VStr "") row);
   ("Speed", get_default "EASIER - Speed" (VStr "") row);
   ("Impact", get_default "EASIER - Impact" (VStr "") row);
   ("Effort", get_default "EASIER - Effort" (VStr "") row);
   ("Reality", get_default "EASIER - Reality" (VStr "") row)].

(** *** A specification as [create_test_form] builds it (lines 311-333) *)

Definition sample_easier : dict :=
  [("Evidence", VInt 3); ("Alignment", VInt 4); ("Speed", VInt 2);
   ("Impact", VInt 5); ("Effort", VInt 3); ("Reality", VInt 1)].

Definition sample_form : dict :=
  [("test_id", VStr "T-1");
   ("test_name", VStr "Shorter form");
   ("hypothesis", VStr "Fewer fields, more completes");
   ("primary_kpi", VStr "RTA Form Completes (Lead Form Submits)");
   ("secondary_kpis", VRef 3%positive);
   ("weekly_sessions", VInt 0);
   ("baseline_cr", VFloat 0);
   ("baseline_sample_size", VInt 0);
   ("funnel_stage", VStr "Conversion");
   ("page_urls", VStr "");
   ("audience_placement", VStr "");
   ("test_types", VRef 4%positive);
   ("variant_summary", VStr "");
   ("easier", VRef 2%positive);
   ("notes", VStr "");
   ("owner", VStr "cro");
   ("status", VStr "Proposed");
   ("ready_for_dev", VBool false);
   ("ready_checks", VRef 5%positive);
   ("start_date", VStr "");
   ("end_date", VStr "")].

Definition sample_heap : gmap loc obj :=
  list_to_map
    [(1%positive, ODict sample_form);
     (2%positive, ODict sample_easier);
     (3%positive, OList [VStr "Bounce Rate"; VStr "Pageviews"]);
     (4%positive, OList [VStr "Form Friction"]);
     (5%positive, ODict [("QA plan documented", VBool false)])].

Definition sample_row : dict :=
  Eval vm_compute in
    match to_catalog_row sample_heap (VRef 1%positive) with Ok row => row | Raise _ => [] end.


(** *** Splitting a joined list *)

Lemma split_sep_app c x r :
  no_sep c x = true -> split c (x +:+ String c r) = x :: split c r.
Proof.
  induction x as [|a x IH]; simpl; intros H.
  - rewrite Ascii.eqb_refl. reflexivity.
  - apply andb_true_iff in H. destruct H as [Ha Hx].
    apply negb_true_iff in Ha. rewrite Ha, (IH Hx). reflexivity.
Qed.

Lemma split_no_sep c x : no_sep c x = true -> split c x = [x].
Proof.
  induction x as [|a x IH]; simpl; intros H; [reflexivity|].
  apply andb_true_iff in H. destruct H as [Ha Hx].
  apply negb_true_iff in Ha. rewrite Ha, (IH Hx). reflexivity.
Qed.

Lemma strip_after_space x : strip (String " " x) = strip x.
Proof. reflexivity. Qed.

Lemma clean_inv x : clean x = true -> x <> "" /\ no_sep "," x = true /\ strip x = x.
Proof.
  unfold clean. rewrite !andb_true_iff, negb_true_iff, String.eqb_eq, String.eqb_neq. tauto.
Qed.

Lemma join_two x y l :
  join ", " (x :: y :: l) = x +:+ String "," (String " " (join ", " (y :: l))).
Proof. reflexivity. Qed.

Lemma strip_split_join (l : list string) :
  forallb clean l = true -> l <> [] ->
  strip <$> split "," (join ", " l) = l /\
  strip <$> split "," (String " " (join ", " l)) = l.
Proof.
  induction l as [|x l IH]; intros Hall Hne; [congruence|].
  simpl in Hall. apply andb_true_iff in Hall. destruct Hall as [Hx Hl].
  destruct (clean_inv x Hx) as (_ & Hsep & Hstrip).
  destruct l as [|y l'].
  - change (join ", " [x]) with x. split.
    + rewrite (split_no_sep _ _ Hsep). cbn [fmap list_fmap]. rewrite Hstrip. reflexivity.
    + rewrite split_no_sep by (simpl; exact Hsep). cbn [fmap list_fmap].
      rewrite strip_after_space, Hstrip. reflexivity.
  - destruct (IH Hl ltac:(discriminate)) as [_ IHsp].
    rewrite join_two. split.
    + rewrite (split_sep_app _ _ _ Hsep). cbn [fmap list_fmap].
      rewrite Hstrip. f_equal. exact IHsp.
    + change (String " " (x +:+ ?r)) with (String " " x +:+ r).
      rewrite split_sep_app by (simpl; exact Hsep). cbn [fmap list_fmap].
      rewrite strip_after_space, Hstrip. f_equal. exact IHsp.
Qed.

Lemma resplit_join (l : list string) : forallb clean l = true -> resplit (join ", " l) = l.
Proof.
  intros Hall. unfold resplit. destruct l as [|x l]; [reflexivity|].
  destruct (strip_split_join (x :: l) Hall ltac:(discriminate)) as [-> _].
  apply forallb_filter_id. apply forallb_forall. intros s Hs.
  rewrite forallb_forall in Hall. specialize (Hall s Hs).
  apply clean_inv in Hall. destruct Hall as (Hne & _).
  apply negb_true_iff, String.eqb_neq. exact Hne.
Qed.

Lemma secondary_kpis_clean : forallb clean SECONDARY_KPIS = true.
Proof. vm_compute. reflexivity. Qed.

Lemma str_items_strings (kpis : list string) : str_items (VStr <$> kpis) = Ok kpis.
Proof.
  induction kpis as [|k kpis IH]; [reflexivity|].
  rewrite fmap_cons. cbn [str_items]. rewrite IH. reflexivity.
Qed.

(** Peels one [bind] off a successful computation. *)
Ltac bind_inv H :=
  match type of H with
  | mbind _ ?m = Ok _ =>
      let E := fresh "E" in
      destruct m eqn:E; cbn [mbind result_bind] in H; [|discriminate H]
  end.

(** C8. When the secondary KPIs of a specification come from the fixed
    catalog, the row holds them joined by [", "] in the order selected,
    and splitting that string on commas, trimming and dropping empty
    pieces gives the selected list back. *)
Theorem secondary_kpis_roundtrip (h : gmap loc obj) (form_data : val)
    (form : dict) (l : loc) (kpis : list string) (row : dict) :
  as_dict h form_data = Ok form ->
  dict_get "secondary_kpis" form = Some (VRef l) ->
  h !! l = Some (OList (VStr <$> kpis)) ->
  Forall (fun k => k ∈ SECONDARY_KPIS) kpis ->
  to_catalog_row h form_data = Ok row ->
  dict_get "Secondary KPIs" row = Some (VStr (join ", " kpis)) /\
  resplit (join ", " kpis) = kpis.
Proof.
  intros Hform Hget Hl Hin Hrow. split.
  - unfold to_catalog_row in Hrow. rewrite Hform in Hrow. cbn [mbind result_bind] in Hrow.
    do 2 bind_inv Hrow.
    assert (Hj : join_field h form "secondary_kpis" = Ok (VStr (join ", " kpis))).
    { unfold join_field, iter_strings. rewrite Hget, Hl, str_items_strings. reflexivity. }
    rewrite Hj in Hrow. cbn [mbind result_bind] in Hrow.
    repeat bind_inv Hrow. injection Hrow as <-. reflexivity.
  - apply resplit_join. apply forallb_forall. intros s Hs.
    rewrite Forall_forall in Hin. apply list_elem_of_In in Hs. specialize (Hin s Hs).
    pose proof secondary_kpis_clean as Hc. rewrite forallb_forall in Hc.
    apply Hc. apply list_elem_of_In. exact Hin.
Qed.

(** C9. A weekly traffic of 0, a conversion rate of 0.0 and a sample size
    of 0 are each written to the row as the empty string, exactly as an
    absent field is. *)
Theorem zero_baselines_blank (h : gmap loc obj) (form_data : val)
    (form : dict) (row : dict) :
  as_dict h form_data = Ok form ->
  to_catalog_row h form_data = Ok row ->
  (dict_get "weekly_sessions" form = Some (VInt 0) \/
   dict_get "weekly_sessions" form = None ->
   dict_get "Baseline Traffic (Weekly)" row = Some (VStr "")) /\
  ((exists q, Qeq q 0 /\ dict_get "baseline_cr" form = Some (VFloat q)) \/
   dict_get "baseline_cr" form = None ->
   dict_get "Current Conversion Rate" row = Some (VStr "")) /\
  (dict_get "baseline_sample_size" form = Some (VInt 0) \/
   dict_get "baseline_sample_size" form = None ->
   dict_get "Baseline Sample Size" row = Some (VStr "")).
Proof.
  intros Hform Hrow.
  unfold to_catalog_row in Hrow. rewrite Hform in Hrow. cbn [mbind result_bind] in Hrow.
  repeat bind_inv Hrow. injection Hrow as <-.
  cbn [dict_get String.eqb Ascii.eqb Bool.eqb].
  unfold get_or_blank, get_default.
  split; [|split].
  - intros [-> | ->]; reflexivity.
  - intros [(q & Hq & ->) | ->]; [|reflexivity].
    apply Qeq_bool_iff in Hq. cbn [default from_option]. cbv zeta.
    unfold Datatypes.id. cbn [truthy]. rewrite Hq. reflexivity.
  - intros [-> | ->]; reflexivity.
Qed.

(** *** Appending to the catalog *)

Lemma add_to_catalog_inv st form_data st' :
  add_to_catalog st form_data = Ok st' ->
  exists row,
    to_catalog_row (heap st) form_data = Ok row /\
    st' = {| heap := <[fresh (dom (heap st)) := ODict row]> (heap st);
             catalog := catalog st ++ [fresh (dom (heap st))] |}.
Proof.
  unfold add_to_catalog. intros H. bind_inv H. injection H as <-. eauto.
Qed.




(** *** A row holds no reference *)

Lemma join_field_inline h form k v : join_field h form k = Ok v -> is_ref v = false.
Proof.
  unfold join_field. destruct (dict_get k form).
  - intros H. bind_inv H. injection H as <-. reflexivity.
  - intros [= <-]. reflexivity.
Qed.

Lemma get_default_inline form k :
  (forall v, dict_get k form = Some v -> is_ref v = false) ->
  is_ref (get_default k (VStr "") form) = false.
Proof. unfold get_default. destruct (dict_get k form); cbn; auto. Qed.

Lemma get_or_blank_inline h form k :
  (forall v, dict_get k form = Some v -> is_ref v = false) ->
  is_ref (get_or_blank h form k) = false.
Proof.
  unfold get_or_blank, get_default. cbv zeta.
  destruct (dict_get k form) as [v|]; cbn; [|reflexivity].
  intros H. destruct (truthy h v); [auto | reflexivity].
Qed.

Lemma easier_cell_inline h form k v :
  (forall easier k' v', get_dict h form "easier" = Ok easier ->
     dict_get k' easier = Some v' -> is_ref v' = false) ->
  easier_cell h form k = Ok v -> is_ref v = false.
Proof.
  intros Hsc. unfold easier_cell. intros H. bind_inv H. injection H as <-.
  unfold get_default. destruct (dict_get k a) eqn:Hk; cbn; [|reflexivity].
  eapply Hsc; [reflexivity | exact Hk].
Qed.

Ltac in_list := repeat first [apply list_elem_of_here | apply list_elem_of_further].

Lemma to_catalog_row_inline h form_data row :
  to_catalog_row h form_data = Ok row ->
  scalars_inline h form_data ->
  Forall (fun kv => is_ref kv.2 = false) row.
Proof.
  intros Hrow Hsc. unfold to_catalog_row in Hrow.
  destruct (as_dict h form_data) as [form|] eqn:Hform; [|discriminate Hrow].
  cbn [mbind result_bind] in Hrow.
  repeat bind_inv Hrow. injection Hrow as <-.
  destruct (Hsc form Hform) as [Hfields Heasier].
  repeat apply Forall_cons_2; try apply Forall_nil_2; cbn [snd];
    first [ reflexivity
          | eapply join_field_inline; eassumption
          | eapply easier_cell_inline; eassumption
          | apply get_default_inline; intros v Hv;
            eapply Hfields; [|exact Hv]; unfold SCALAR_FIELDS; in_list
          | apply get_or_blank_inline; intros v Hv;
            eapply Hfields; [|exact Hv]; unfold SCALAR_FIELDS; in_list ].
Qed.

(** *** Appending a well-formed specification succeeds *)

Lemma sum_coerced_ints easier ks acc :
  (forall k, k ∈ ks -> exists z, get_default k (VInt 0) easier = VInt z) ->
  exists total, sum_coerced easier ks acc = Ok total.
Proof.
  revert acc. induction ks as [|k ks IH]; intros acc H; cbn [sum_coerced]; [eauto|].
  destruct (H k (list_elem_of_here _ _)) as [z ->]. cbn [py_int mbind result_bind].
  apply IH. intros k' Hk'. apply H, list_elem_of_further, Hk'.
Qed.

Lemma join_field_strings h form k :
  string_list_field h form k -> exists s, join_field h form k = Ok (VStr s).
Proof.
  unfold join_field, iter_strings. intros [-> | (l & items & -> & ->)]; [eauto|].
  rewrite str_items_strings. cbn [mbind result_bind]. eauto.
Qed.

Lemma to_catalog_row_succeeds h form_data :
  well_formed_spec h form_data -> exists row, to_catalog_row h form_data = Ok row.
Proof.
  intros (form & easier & Hform & Heasier & Hints & Hsec & Htypes).
  unfold to_catalog_row, easier_cell. rewrite Hform. cbn [mbind result_bind].
  rewrite Heasier. cbn [mbind result_bind].
  destruct (sum_coerced_ints easier EASIER_COMPONENTS 0%Z Hints) as [total Htotal].
  unfold easier_total. rewrite Htotal. cbn [mbind result_bind].
  destruct (join_field_strings h form _ Hsec) as [s1 ->].
  destruct (join_field_strings h form _ Htypes) as [s2 ->].
  cbn [mbind result_bind]. eauto.
Qed.

Lemma add_to_catalog_succeeds st form_data :
  well_formed_spec (heap st) form_data -> exists st', add_to_catalog st form_data = Ok st'.
Proof.
  intros Hwf. destruct (to_catalog_row_succeeds _ _ Hwf) as [row Hrow].
  unfold add_to_catalog. rewrite Hrow. cbn [mbind result_bind]. eauto.
Qed.

(** *** The row of one append, after the rest of the run *)



Lemma to_catalog_row_copies h form_data form row k col :
  as_dict h form_data = Ok form ->
  to_catalog_row h form_data = Ok row ->
  (k, col) ∈ COPIED_FIELDS ->
  dict_get col row = Some (get_default k (VStr "") form).
Proof.
  intros Hform Hrow Hin.
  unfold to_catalog_row in Hrow. rewrite Hform in Hrow.
  cbn [mbind result_bind] in Hrow.
  repeat bind_inv Hrow. injection Hrow as <-.
  unfold COPIED_FIELDS in Hin.
  repeat (apply elem_of_cons in Hin; destruct Hin as [[= -> ->] | Hin]; [reflexivity|]).
  inversion Hin.
Qed.






Lemma secondary_kpis_roundtrip_witness :
  dict_get "Secondary KPIs" sample_row
  = Some (VStr (join ", " ["Bounce Rate"; "Pageviews"])) /\
  resplit (join ", " ["Bounce Rate"; "Pageviews"]) = ["Bounce Rate"; "Pageviews"].
Proof.
  apply (secondary_kpis_roundtrip sample_heap (VRef 1%positive) sample_form 3%positive).
  - reflexivity.
  - reflexivity.
  - reflexivity.
  - repeat constructor; unfold SECONDARY_KPIS; in_list.
  - vm_compute. reflexivity.
Defined.

Lemma zero_baselines_blank_witness :
  (dict_get "weekly_sessions" sample_form = Some (VInt 0) \/
   dict_get "weekly_sessions" sample_form = None ->
   dict_get "Baseline Traffic (Weekly)" sample_row = Some (VStr "")) /\
  ((exists q, Qeq q 0 /\ dict_get "baseline_cr" sample_form = Some (VFloat q)) \/
   dict_get "baseline_cr" sample_form = None ->
   dict_get "Current Conversion Rate" sample_row = Some (VStr "")) /\
  (dict_get "baseline_sample_size" sample_form = Some (VInt 0) \/
   dict_get "baseline_sample_size" sample_form = None ->
   dict_get "Baseline Sample Size" sample_row = Some (VStr "")).
Proof.
  apply (zero_baselines_blank sample_heap (VRef 1%positive) sample_form sample_row).
  - reflexivity.
  - vm_compute. reflexivity.
Defined.

(** A specification without a rubric gets blank rubric cells, and the
    rubric rebuilt from such a row makes [easier_total] raise. *)
Lemma blank_rubric_reexport_raises (h : gmap loc obj) (form_data : val)
    (form row : dict) :
  as_dict h form_data = Ok form ->
  dict_get "easier" form = None ->
  to_catalog_row h form_data = Ok row ->
  dict_get "EASIER - Evidence" row = Some (VStr "") /\
  raises (easier_total (form_like_easier row)).
Proof.
  intros Hform Hnone Hrow.
  unfold to_catalog_row in Hrow. rewrite Hform in Hrow. cbn [mbind result_bind] in Hrow.
  unfold easier_cell, get_dict in Hrow. rewrite Hnone in Hrow.
  cbn [mbind result_bind easier_total] in Hrow.
  repeat bind_inv Hrow. injection Hrow as <-.
  split; [reflexivity|]. exists ValueError. reflexivity.
Qed.

End Catalog.

(** ** More on the duration estimate (lines 104-115) *)

Module DurationFacts.
Import Duration.
Local Open Scope Q_scope.








End DurationFacts.

(** ** More on catalog rows (lines 47-58, 117-145, 187-200, 421-448) *)

Module CatalogFacts.
Import Rubric Catalog.
Local Open Scope string_scope.

Definition TEST_TYPES : list string :=
  ["Copy & Messaging";
   "CTA Styling";
   "Form Friction";
   "Layout / Information Hierarchy";
   "Social Proof";
   "Urgency / Scarcity";
   "Media (Images/Video)";
   "Navigation / IA";
   "Trust & Security";
   "Performance / UX"].

(** The columns [catalog_df] gives the frame of an empty catalog
    (lines 193-199). *)
Definition CATALOG_COLUMNS : list string :=
  ["Test ID"; "Test Name"; "Hypothesis"; "Primary KPI"; "Secondary KPIs";
   "Baseline Traffic (Weekly)"; "Current Conversion Rate"; "Baseline Sample Size";
   "Audience / Placement"; "EASIER - Evidence"; "EASIER - Alignment"; "EASIER - Speed";
   "EASIER - Impact"; "EASIER - Effort"; "EASIER - Reality"; "EASIER Total"; "Notes";
   "Test Type"; "Funnel Stage"; "Owner"; "Status"; "Start"; "End"; "Page URL(s)";
   "Variant Summary"].

(** The scalar fields of a specification and the column each one fills
    (lines 120-144). *)
Definition FIELD_COLUMNS : list (string * string) :=
  [("test_id", "Test ID"); ("test_name", "Test Name"); ("hypothesis", "Hypothesis");
   ("primary_kpi", "Primary KPI"); ("weekly_sessions", "Baseline Traffic (Weekly)");
   ("baseline_cr", "Current Conversion Rate");
   ("baseline_sample_size", "Baseline Sample Size");
   ("audience_placement", "Audience / Placement"); ("notes", "Notes");
   ("funnel_stage", "Funnel Stage"); ("owner", "Owner"); ("status", "Status");
   ("start_date", "Start"); ("end_date", "End"); ("page_urls", "Page URL(s)");
   ("variant_summary", "Variant Summary")].

(** The keys of a specification that [to_catalog_row] reads. *)
Definition READ_KEYS : list string :=
  (SCALAR_FIELDS ++ ["easier"; "secondary_kpis"; "test_types"])%list.

(** The columns filled from the rubric and from the two list fields. *)
Definition CONTAINER_COLUMNS : list string :=
  ["Secondary KPIs"; "EASIER - Evidence"; "EASIER - Alignment"; "EASIER - Speed";
   "EASIER - Impact"; "EASIER - Effort"; "EASIER - Reality"; "Test Type"].

(** An object whose truth value is true. *)
Definition obj_truthy (o : obj) : Prop :=
  match o with
  | ODict [] | OList [] => False
  | _ => True
  end.

(** A specification with nothing but an identifier. *)
Definition bare_heap : gmap loc obj :=
  {[ 1%positive := ODict [("test_id", VStr "T-2")] ]}.

Definition bare_row : dict :=
  Eval vm_compute in
    match to_catalog_row bare_heap (VRef 1%positive) with Ok row => row | Raise _ => [] end.

(** A specification whose notes are a list. *)
Definition shared_form : dict := [("test_id", VStr "T-3"); ("notes", VRef 2%positive)].

Definition shared_heap : gmap loc obj :=
  list_to_map [(1%positive, ODict shared_form); (2%positive, OList [VStr "first"])].

(** *** Columns *)

(** X6. Every row has exactly the 25 columns that [catalog_df] lists for
    an empty catalog, in the same order and without repetition, whatever
    the specification holds. *)
Theorem row_columns_fixed (h : gmap loc obj) (form_data : val) (row : dict) :
  to_catalog_row h form_data = Ok row ->
  row.*1 = CATALOG_COLUMNS /\ NoDup (row.*1) /\ length row = 25.
Proof.
  intros Hrow. unfold to_catalog_row in Hrow.
  repeat bind_inv Hrow. injection Hrow as <-.
  split; [reflexivity|]. split; [|reflexivity].
  apply (bool_decide_unpack _). vm_compute. reflexivity.
Qed.

Lemma row_columns_fixed_witness :
  sample_row.*1 = CATALOG_COLUMNS /\ NoDup (sample_row.*1) /\ length sample_row = 25.
Proof.
  apply (row_columns_fixed sample_heap (VRef 1%positive)). vm_compute. reflexivity.
Defined.

(** *** What the re-split returns *)

Lemma split_pieces_no_sep c s : Forall (fun x => no_sep c x = true) (split c s).
Proof.
  induction s as [|a s IH]; cbn [split].
  - repeat constructor.
  - destruct (Ascii.eqb a c) eqn:E.
    + constructor; [reflexivity | exact IH].
    + destruct (split c s) as [|piece rest].
      * repeat constructor. cbn. rewrite E. reflexivity.
      * apply Forall_cons in IH. destruct IH as [Hp Hr].
        constructor; [|exact Hr]. cbn. rewrite E, Hp. reflexivity.
Qed.

Lemma no_sep_lstrip c s : no_sep c s = true -> no_sep c (lstrip s) = true.
Proof.
  induction s as [|a s IH]; cbn [lstrip]; intros H; [reflexivity|].
  destruct (is_space a); [|exact H].
  cbn in H. apply andb_true_iff in H. apply IH, H.
Qed.

Lemma rstrip_cons a s :
  rstrip (String a s)
  = match rstrip s with
    | EmptyString => if is_space a then EmptyString else String a EmptyString
    | r => String a r
    end.
Proof. reflexivity. Qed.

Lemma no_sep_rstrip c s : no_sep c s = true -> no_sep c (rstrip s) = true.
Proof.
  induction s as [|a s IH]; intros H; [reflexivity|]. rewrite rstrip_cons.
  cbn in H. apply andb_true_iff in H. destruct H as [Ha Hs].
  specialize (IH Hs). destruct (rstrip s) as [|b r].
  - destruct (is_space a); [reflexivity|]. cbn. rewrite Ha. reflexivity.
  - cbn [no_sep]. rewrite Ha. exact IH.
Qed.

Lemma rstrip_idem s : rstrip (rstrip s) = rstrip s.
Proof.
  induction s as [|a s IH]; [reflexivity|]. rewrite rstrip_cons.
  destruct (rstrip s) as [|b r] eqn:E.
  - destruct (is_space a) eqn:Ea; [reflexivity|]. rewrite rstrip_cons. cbn [rstrip].
    rewrite Ea. reflexivity.
  - rewrite rstrip_cons, IH. reflexivity.
Qed.

Lemma lstrip_head s :
  lstrip s = EmptyString \/ exists a r, lstrip s = String a r /\ is_space a = false.
Proof.
  induction s as [|a s IH]; cbn [lstrip]; [left; reflexivity|].
  destruct (is_space a) eqn:E; [exact IH | right; eauto].
Qed.

Lemma lstrip_rstrip_head a r :
  is_space a = false -> lstrip (rstrip (String a r)) = rstrip (String a r).
Proof.
  intros Ha. rewrite rstrip_cons. destruct (rstrip r); rewrite ?Ha; cbn [lstrip]; rewrite Ha;
    reflexivity.
Qed.

Lemma strip_idem s : strip (strip s) = strip s.
Proof.
  unfold strip. destruct (lstrip_head s) as [-> | (a & r & -> & Ha)]; [reflexivity|].
  rewrite (lstrip_rstrip_head a r Ha). apply rstrip_idem.
Qed.

Lemma resplit_clean s : forallb clean (resplit s) = true.
Proof.
  unfold resplit. apply forallb_forall. intros x Hx.
  apply filter_In in Hx. destruct Hx as [Hx Hne].
  apply list_elem_of_In, list_elem_of_fmap in Hx. destruct Hx as (y & -> & Hy).
  pose proof (split_pieces_no_sep "," s) as Hsep.
  rewrite Forall_forall in Hsep. specialize (Hsep y Hy).
  unfold clean. rewrite Hne. cbn [andb].
  unfold strip at 1. rewrite no_sep_rstrip by (apply no_sep_lstrip, Hsep). cbn [andb].
  rewrite strip_idem. apply String.eqb_refl.
Qed.

(** X7. Whatever text a cell holds, the list recovered from it by the
    re-split of [catalog_page] has only non-empty, trimmed, comma-free
    items, and it is a fixed point: joining it with [", "] as
    [to_catalog_row] does and splitting again returns the same list. *)
Theorem resplit_fixed_point (s : string) :
  forallb clean (resplit s) = true /\
  resplit (join ", " (resplit s)) = resplit s.
Proof.
  split; [apply resplit_clean|]. apply resplit_join, resplit_clean.
Qed.

Lemma test_types_clean : forallb clean TEST_TYPES = true.
Proof. vm_compute. reflexivity. Qed.

(** X8. When the test types of a specification come from the fixed list,
    the row holds them joined by [", "] in the order selected, and the
    re-split of [catalog_page] (line 440) gives the selected list back. *)
Theorem test_types_roundtrip (h : gmap loc obj) (form_data : val)
    (form : dict) (l : loc) (types : list string) (row : dict) :
  as_dict h form_data = Ok form ->
  dict_get "test_types" form = Some (VRef l) ->
  h !! l = Some (OList (VStr <$> types)) ->
  Forall (fun t => t ∈ TEST_TYPES) types ->
  to_catalog_row h form_data = Ok row ->
  dict_get "Test Type" row = Some (VStr (join ", " types)) /\
  resplit (join ", " types) = types.
Proof.
  intros Hform Hget Hl Hin Hrow. split.
  - assert (Hj : join_field h form "test_types" = Ok (VStr (join ", " types))).
    { unfold join_field, iter_strings. rewrite Hget, Hl, str_items_strings. reflexivity. }
    unfold to_catalog_row in Hrow. rewrite Hform in Hrow.
    cbn [mbind result_bind] in Hrow. rewrite Hj in Hrow.
    repeat bind_inv Hrow. injection Hrow as <-. reflexivity.
  - apply resplit_join. apply forallb_forall. intros s Hs.
    rewrite Forall_forall in Hin. apply list_elem_of_In in Hs. specialize (Hin s Hs).
    pose proof test_types_clean as Hc. rewrite forallb_forall in Hc.
    apply Hc. apply list_elem_of_In. exact Hin.
Qed.

Lemma test_types_roundtrip_witness :
  dict_get "Test Type" sample_row = Some (VStr (join ", " ["Form Friction"])) /\
  resplit (join ", " ["Form Friction"]) = ["Form Friction"].
Proof.
  apply (test_types_roundtrip sample_heap (VRef 1%positive) sample_form 4%positive).
  - reflexivity.
  - reflexivity.
  - reflexivity.
  - repeat constructor; unfold TEST_TYPES; in_list.
  - vm_compute. reflexivity.
Defined.

(** *** The rubric cells of a row *)

(** X9. When the rubric of a specification lacks one of the six factors,
    the row has the empty string in that factor's cell, and the rubric
    that the re-export of [catalog_page] rebuilds from the row's cells
    (lines 431-438) makes [easier_total] raise, although the total of the
    specification itself was computed. *)
Theorem partial_rubric_reexport_raises (h : gmap loc obj) (form_data : val)
    (form easier row : dict) (k : string) :
  as_dict h form_data = Ok form ->
  get_dict h form "easier" = Ok easier ->
  k ∈ EASIER_COMPONENTS ->
  dict_get k easier = None ->
  to_catalog_row h form_data = Ok row ->
  dict_get k (form_like_easier row) = Some (VStr "") /\
  raises (easier_total (form_like_easier row)).
Proof.
  intros Hform Heasier Hk Hnone Hrow.
  assert (Hcell : dict_get k (form_like_easier row) = Some (VStr "")).
  { unfold to_catalog_row, easier_cell in Hrow. rewrite Hform in Hrow.
    cbn [mbind result_bind] in Hrow. rewrite Heasier in Hrow.
    cbn [mbind result_bind] in Hrow.
    repeat bind_inv Hrow. injection Hrow as <-.
    unfold EASIER_COMPONENTS in Hk.
    repeat (apply elem_of_cons in Hk; destruct Hk as [-> | Hk];
            [cbn [form_like_easier get_default dict_get String.eqb Ascii.eqb Bool.eqb
                  default from_option];
             unfold get_default, Datatypes.id; rewrite Hnone; reflexivity|]).
    inversion Hk. }
  split; [exact Hcell|].
  unfold easier_total. apply (sum_coerced_raises _ _ _ k Hk).
  unfold get_default. rewrite Hcell. apply raises_Raise.
Qed.

Lemma partial_rubric_reexport_raises_witness :
  dict_get "Evidence" (form_like_easier bare_row) = Some (VStr "") /\
  raises (easier_total (form_like_easier bare_row)).
Proof.
  apply (partial_rubric_reexport_raises bare_heap (VRef 1%positive)
           [("test_id", VStr "T-2")] []).
  - reflexivity.
  - reflexivity.
  - unfold EASIER_COMPONENTS. in_list.
  - reflexivity.
  - vm_compute. reflexivity.
Defined.

(** X10. When the rubric of a specification binds each of the six factors
    to an integer, the total column of its row is the total that
    [easier_total] computes again from the six rubric cells, as the
    re-export of [catalog_page] does (lines 431-438, 175). *)
Theorem rubric_cells_total_consistent (h : gmap loc obj) (form_data : val)
    (form easier : dict) (row : dict) :
  as_dict h form_data = Ok form ->
  get_dict h form "easier" = Ok easier ->
  (forall k, k ∈ EASIER_COMPONENTS -> exists z, dict_get k easier = Some (VInt z)) ->
  to_catalog_row h form_data = Ok row ->
  exists total : Z,
    dict_get "EASIER Total" row = Some (VInt total) /\
    easier_total (form_like_easier row) = Ok total.
Proof.
  intros Hform Heasier Hints Hrow.
  unfold to_catalog_row, easier_cell in Hrow. rewrite Hform in Hrow.
  cbn [mbind result_bind] in Hrow. rewrite Heasier in Hrow.
  cbn [mbind result_bind] in Hrow.
  destruct (Hints "Evidence" ltac:(unfold EASIER_COMPONENTS; in_list)) as [z1 H1].
  destruct (Hints "Alignment" ltac:(unfold EASIER_COMPONENTS; in_list)) as [z2 H2].
  destruct (Hints "Speed" ltac:(unfold EASIER_COMPONENTS; in_list)) as [z3 H3].
  destruct (Hints "Impact" ltac:(unfold EASIER_COMPONENTS; in_list)) as [z4 H4].
  destruct (Hints "Effort" ltac:(unfold EASIER_COMPONENTS; in_list)) as [z5 H5].
  destruct (Hints "Reality" ltac:(unfold EASIER_COMPONENTS; in_list)) as [z6 H6].
  unfold easier_total, EASIER_COMPONENTS, get_default in Hrow.
  cbn [sum_coerced] in Hrow. unfold get_default in Hrow.
  rewrite H1, H2, H3, H4, H5, H6 in Hrow.
  cbn [default from_option py_int mbind result_bind] in Hrow.
  repeat bind_inv Hrow. injection Hrow as <-.
  unfold Datatypes.id in E. cbn [py_int mbind result_bind] in E. injection E as <-.
  eexists. split; reflexivity.
Qed.

Lemma rubric_cells_total_consistent_witness :
  exists total : Z,
    dict_get "EASIER Total" sample_row = Some (VInt total) /\
    easier_total (form_like_easier sample_row) = Ok total.
Proof.
  apply (rubric_cells_total_consistent sample_heap (VRef 1%positive)
           sample_form sample_easier).
  - reflexivity.
  - reflexivity.
  - intros k Hk. unfold EASIER_COMPONENTS in Hk.
    repeat (apply elem_of_cons in Hk; destruct Hk as [-> | Hk]; [eexists; reflexivity|]).
    inversion Hk.
  - vm_compute. reflexivity.
Defined.

(** *** Missing fields *)

(** X11. A missing field never makes normalisation fail.  A specification
    without rubric and without the two list fields, whatever else it
    holds, normalises to a row whose rubric and list cells are blank and
    whose total is 0; and in any row, the cell of a missing scalar field
    is the empty string. *)
Theorem missing_fields_blank (h : gmap loc obj) (form_data : val) (form : dict) :
  as_dict h form_data = Ok form ->
  (dict_get "easier" form = None ->
   dict_get "secondary_kpis" form = None ->
   dict_get "test_types" form = None ->
   exists row,
     to_catalog_row h form_data = Ok row /\
     Forall (fun col => dict_get col row = Some (VStr "")) CONTAINER_COLUMNS /\
     dict_get "EASIER Total" row = Some (VInt 0)) /\
  (forall row k col,
     to_catalog_row h form_data = Ok row ->
     (k, col) ∈ FIELD_COLUMNS ->
     dict_get k form = None ->
     dict_get col row = Some (VStr "")).
Proof.
  intros Hform. split.
  - intros He Hs Ht. unfold to_catalog_row, easier_cell, get_dict, join_field.
    rewrite Hform. cbn [mbind result_bind]. rewrite He, Hs, Ht.
    cbn [mbind result_bind]. eexists. split; [reflexivity|].
    split; [|reflexivity]. repeat constructor.
  - intros row k col Hrow Hin Hk.
    unfold to_catalog_row in Hrow. rewrite Hform in Hrow.
    cbn [mbind result_bind] in Hrow.
    repeat bind_inv Hrow. injection Hrow as <-.
    unfold FIELD_COLUMNS in Hin.
    repeat (apply elem_of_cons in Hin; destruct Hin as [[= -> ->] | Hin];
            [cbn [dict_get String.eqb Ascii.eqb Bool.eqb];
             unfold get_or_blank, get_default; rewrite Hk; reflexivity|]).
    inversion Hin.
Qed.

Lemma missing_fields_blank_witness :
  (dict_get "easier" [("test_id", VStr "T-2")] = None ->
   dict_get "secondary_kpis" [("test_id", VStr "T-2")] = None ->
   dict_get "test_types" [("test_id", VStr "T-2")] = None ->
   exists row,
     to_catalog_row bare_heap (VRef 1%positive) = Ok row /\
     Forall (fun col => dict_get col row = Some (VStr "")) CONTAINER_COLUMNS /\
     dict_get "EASIER Total" row = Some (VInt 0)) /\
  (forall row k col,
     to_catalog_row bare_heap (VRef 1%positive) = Ok row ->
     (k, col) ∈ FIELD_COLUMNS ->
     dict_get k [("test_id", VStr "T-2")] = None ->
     dict_get col row = Some (VStr "")).
Proof. apply (missing_fields_blank bare_heap (VRef 1%positive)). reflexivity. Defined.

(** *** Appending the same specification again *)

Lemma as_dict_alloc h v d l o :
  h !! l = None -> as_dict h v = Ok d -> as_dict (<[l := o]> h) v = Ok d.
Proof.
  intros Hl. destruct v as [| | | | |l']; cbn [as_dict]; try discriminate.
  destruct (h !! l') as [o'|] eqn:E; [|discriminate].
  rewrite lookup_insert_ne by congruence. rewrite E. auto.
Qed.

Lemma get_dict_alloc h form k d l o :
  h !! l = None -> get_dict h form k = Ok d -> get_dict (<[l := o]> h) form k = Ok d.
Proof.
  intros Hl. unfold get_dict. destruct (dict_get k form); [|auto].
  apply as_dict_alloc, Hl.
Qed.

Lemma join_field_alloc h form k v l o :
  h !! l = None -> join_field h form k = Ok v -> join_field (<[l := o]> h) form k = Ok v.
Proof.
  intros Hl. unfold join_field. destruct (dict_get k form) as [x|]; [|auto].
  destruct x as [| | | | |l']; cbn [iter_strings]; auto.
  destruct (h !! l') as [o'|] eqn:E; [|discriminate].
  rewrite lookup_insert_ne by congruence. rewrite E. auto.
Qed.

Lemma easier_cell_alloc h form k v l o :
  h !! l = None -> easier_cell h form k = Ok v -> easier_cell (<[l := o]> h) form k = Ok v.
Proof.
  intros Hl. unfold easier_cell. intros H. bind_inv H.
  rewrite (get_dict_alloc _ _ _ _ _ _ Hl E). exact H.
Qed.

Lemma truthy_alloc h v l o :
  h !! l = None -> obj_truthy o -> truthy (<[l := o]> h) v = truthy h v.
Proof.
  intros Hl Ho. destruct v as [| | | | |l']; cbn [truthy]; try reflexivity.
  destruct (decide (l = l')) as [<- | Hne].
  - rewrite lookup_insert_eq, Hl. destruct o as [[|] | [|]]; cbn in Ho; tauto.
  - rewrite lookup_insert_ne by exact Hne. reflexivity.
Qed.

Lemma get_or_blank_alloc h form k l o :
  h !! l = None -> obj_truthy o ->
  get_or_blank (<[l := o]> h) form k = get_or_blank h form k.
Proof. intros Hl Ho. unfold get_or_blank. rewrite (truthy_alloc _ _ _ _ Hl Ho). reflexivity. Qed.

(** A successful normalisation reads only objects of the store, so a new
    object elsewhere does not change its result. *)
Lemma to_catalog_row_alloc h form_data row l o :
  h !! l = None -> obj_truthy o ->
  to_catalog_row h form_data = Ok row ->
  to_catalog_row (<[l := o]> h) form_data = Ok row.
Proof.
  intros Hl Ho Hrow. unfold to_catalog_row in *.
  repeat bind_inv Hrow. injection Hrow as <-.
  rewrite (as_dict_alloc _ _ _ _ _ Hl E). cbn [mbind result_bind].
  rewrite (get_dict_alloc _ _ _ _ _ _ Hl E0). cbn [mbind result_bind].
  rewrite E1. cbn [mbind result_bind].
  rewrite (join_field_alloc _ _ _ _ _ _ Hl E2). cbn [mbind result_bind].
  rewrite (easier_cell_alloc _ _ _ _ _ _ Hl E3). cbn [mbind result_bind].
  rewrite (easier_cell_alloc _ _ _ _ _ _ Hl E4). cbn [mbind result_bind].
  rewrite (easier_cell_alloc _ _ _ _ _ _ Hl E5). cbn [mbind result_bind].
  rewrite (easier_cell_alloc _ _ _ _ _ _ Hl E6). cbn [mbind result_bind].
  rewrite (easier_cell_alloc _ _ _ _ _ _ Hl E7). cbn [mbind result_bind].
  rewrite (easier_cell_alloc _ _ _ _ _ _ Hl E8). cbn [mbind result_bind].
  rewrite (join_field_alloc _ _ _ _ _ _ Hl E9). cbn [mbind result_bind].
  rewrite !(get_or_blank_alloc _ _ _ _ _ Hl Ho). reflexivity.
Qed.

Lemma to_catalog_row_truthy h form_data row :
  to_catalog_row h form_data = Ok row -> obj_truthy (ODict row).
Proof.
  intros Hrow. unfold to_catalog_row in Hrow.
  repeat bind_inv Hrow. injection Hrow as <-. exact I.
Qed.

(** X12. Nothing in [add_to_catalog] looks for an earlier row: a
    specification that was appended once can be appended again, and the
    catalog then ends with two distinct row objects of equal contents.
    Neither append changes an object that existed before, the
    specification included. *)
Theorem append_twice (st st1 : session) (form_data : val) :
  add_to_catalog st form_data = Ok st1 ->
  exists (st2 : session) (l1 l2 : loc) (row : dict),
    add_to_catalog st1 form_data = Ok st2 /\
    catalog st2 = (catalog st ++ [l1; l2])%list /\
    l1 <> l2 /\
    heap st2 !! l1 = Some (ODict row) /\
    heap st2 !! l2 = Some (ODict row) /\
    (forall l, l ∈ dom (heap st) -> heap st2 !! l = heap st !! l).
Proof.
  intros H1. apply add_to_catalog_inv in H1. destruct H1 as (row & Hrow & ->).
  set (l1 := fresh (dom (heap st))).
  assert (Hl1 : heap st !! l1 = None) by (apply not_elem_of_dom, is_fresh).
  set (h1 := <[l1 := ODict row]> (heap st)).
  set (l2 := fresh (dom h1)).
  assert (Hl2 : h1 !! l2 = None) by (apply not_elem_of_dom, is_fresh).
  assert (Hne : l1 <> l2).
  { intros Heq. unfold h1 in Hl2. rewrite <- Heq, lookup_insert_eq in Hl2. discriminate. }
  pose proof (to_catalog_row_alloc _ _ _ l1 (ODict row) Hl1
                (to_catalog_row_truthy _ _ _ Hrow) Hrow) as Hrow1.
  exists {| heap := <[l2 := ODict row]> h1;
            catalog := ((catalog st ++ [l1]) ++ [l2])%list |},
    l1, l2, row.
  split; [|split; [|split; [|split; [|split]]]]; cbn [heap catalog].
  - change (to_catalog_row h1 form_data = Ok row) in Hrow1.
    unfold add_to_catalog. cbn [heap catalog]. rewrite Hrow1.
    cbn [mbind result_bind]. reflexivity.
  - rewrite <- app_assoc. reflexivity.
  - exact Hne.
  - rewrite lookup_insert_ne by congruence. apply lookup_insert_eq.
  - apply lookup_insert_eq.
  - intros l Hl. apply elem_of_dom in Hl. destruct Hl as [o Ho].
    rewrite lookup_insert_ne.
    + unfold h1. rewrite lookup_insert_ne; [reflexivity|]. congruence.
    + intros <-. unfold h1 in Hl2. rewrite lookup_insert_ne in Hl2 by congruence.
      congruence.
Qed.

Lemma append_twice_witness :
  exists (st1 st2 : session) (l1 l2 : loc) (row : dict),
    add_to_catalog {| heap := sample_heap; catalog := [] |} (VRef 1%positive) = Ok st1 /\
    add_to_catalog st1 (VRef 1%positive) = Ok st2 /\
    catalog st2 = ([] ++ [l1; l2])%list /\
    l1 <> l2 /\
    heap st2 !! l1 = Some (ODict row) /\
    heap st2 !! l2 = Some (ODict row) /\
    (forall l, l ∈ dom sample_heap -> heap st2 !! l = sample_heap !! l).
Proof.
  eexists. 
  assert (H : add_to_catalog {| heap := sample_heap; catalog := [] |} (VRef 1%positive)
              = Ok _) by (vm_compute; reflexivity).
  destruct (append_twice _ _ _ H) as (st2 & l1 & l2 & row & Hrest).
  exists st2, l1, l2, row. split; [exact H | exact Hrest].
Defined.

(** *** Keys the row does not read *)

Lemma as_dict_insert_other h l o v :
  v <> VRef l -> as_dict (<[l := o]> h) v = as_dict h v.
Proof.
  intros Hv. destruct v as [| | | | |l']; try reflexivity.
  cbn [as_dict]. rewrite lookup_insert_ne by congruence. reflexivity.
Qed.

Lemma iter_strings_insert_other h l o v :
  v <> VRef l -> iter_strings (<[l := o]> h) v = iter_strings h v.
Proof.
  intros Hv. destruct v as [| | | | |l']; try reflexivity.
  cbn [iter_strings]. rewrite lookup_insert_ne by congruence. reflexivity.
Qed.

Lemma truthy_insert_other h l o v :
  v <> VRef l -> truthy (<[l := o]> h) v = truthy h v.
Proof.
  intros Hv. destruct v as [| | | | |l']; try reflexivity.
  cbn [truthy]. rewrite lookup_insert_ne by congruence. reflexivity.
Qed.

Section OtherKey.
Variables (h : gmap loc obj) (l : loc) (form : dict) (k : string) (v : val) (o : obj).
Hypothesis no_self_reference : forall k', dict_get k' form <> Some (VRef l).

Lemma get_dict_other k' :
  k <> k' -> get_dict (<[l := o]> h) (dict_set k v form) k' = get_dict h form k'.
Proof.
  intros Hne. unfold get_dict. rewrite (dict_get_set_ne _ _ _ _ Hne).
  destruct (dict_get k' form) as [x|] eqn:E; [|reflexivity].
  apply as_dict_insert_other. intros ->. exact (no_self_reference k' E).
Qed.

Lemma join_field_other k' :
  k <> k' -> join_field (<[l := o]> h) (dict_set k v form) k' = join_field h form k'.
Proof.
  intros Hne. unfold join_field. rewrite (dict_get_set_ne _ _ _ _ Hne).
  destruct (dict_get k' form) as [x|] eqn:E; [|reflexivity].
  rewrite iter_strings_insert_other; [reflexivity|].
  intros ->. exact (no_self_reference k' E).
Qed.

Lemma easier_cell_other c :
  k <> "easier" ->
  easier_cell (<[l := o]> h) (dict_set k v form) c = easier_cell h form c.
Proof. intros Hne. unfold easier_cell. rewrite (get_dict_other _ Hne). reflexivity. Qed.

Lemma get_default_other k' d :
  k <> k' -> get_default k' d (dict_set k v form) = get_default k' d form.
Proof. intros Hne. unfold get_default. rewrite (dict_get_set_ne _ _ _ _ Hne). reflexivity. Qed.

Lemma get_or_blank_other k' :
  k <> k' -> get_or_blank (<[l := o]> h) (dict_set k v form) k' = get_or_blank h form k'.
Proof.
  intros Hne. unfold get_or_blank. rewrite (get_default_other _ _ Hne). cbv zeta.
  rewrite truthy_insert_other; [reflexivity|].
  unfold get_default. destruct (dict_get k' form) as [x|] eqn:E; cbn; [|discriminate].
  intros ->. exact (no_self_reference k' E).
Qed.

End OtherKey.

(** X16. The row depends on nothing but the nineteen keys it reads:
    binding any other key of the specification in place, as validation
    does with ["power"], leaves the result of [to_catalog_row] as it was
    (for a specification none of whose fields is the specification
    itself). *)
Theorem row_ignores_other_keys (h : gmap loc obj) (l : loc) (form : dict)
    (k : string) (v : val) :
  h !! l = Some (ODict form) ->
  k ∉ READ_KEYS ->
  (forall k', dict_get k' form <> Some (VRef l)) ->
  to_catalog_row (<[l := ODict (dict_set k v form)]> h) (VRef l)
  = to_catalog_row h (VRef l).
Proof.
  intros Hl Hk Hself. unfold READ_KEYS, SCALAR_FIELDS in Hk. cbn [app] in Hk.
  repeat (apply not_elem_of_cons in Hk; destruct Hk as [? Hk]).
  unfold to_catalog_row. cbn [as_dict]. rewrite lookup_insert_eq, Hl.
  cbn [mbind result_bind].
  rewrite !(get_dict_other h l form k v _ Hself) by assumption.
  rewrite !(join_field_other h l form k v _ Hself) by assumption.
  rewrite !(easier_cell_other h l form k v _ Hself) by assumption.
  rewrite !(get_or_blank_other h l form k v _ Hself) by assumption.
  rewrite !(get_default_other form k v) by assumption.
  reflexivity.
Qed.

Lemma row_ignores_other_keys_witness :
  to_catalog_row
    (<[1%positive := ODict (dict_set "power" (VStr "n/a") sample_form)]> sample_heap)
    (VRef 1%positive)
  = to_catalog_row sample_heap (VRef 1%positive).
Proof.
  apply (row_ignores_other_keys sample_heap 1%positive sample_form "power").
  - reflexivity.
  - apply (bool_decide_unpack _). vm_compute. reflexivity.
  - intros k' H. unfold sample_form in H. cbn [dict_get] in H.
    repeat (match type of H with
            | context [String.eqb k' ?s] => destruct (String.eqb k' s)
            end; [discriminate H|]).
    discriminate H.
Defined.

(** *** A container in a plain field *)

(** X18. A plain field bound to a container is copied by reference: the
    cell of the new row is that same object.  The row is a new object and
    a later change of the container leaves the row as it is, but what the
    cell refers to has changed. *)
Theorem container_field_shared (st st1 : session) (form_data : val) (form : dict)
    (k col : string) (l : loc) (o : obj) :
  as_dict (heap st) form_data = Ok form ->
  (k, col) ∈ COPIED_FIELDS ->
  dict_get k form = Some (VRef l) ->
  l ∈ dom (heap st) ->
  add_to_catalog st form_data = Ok st1 ->
  exists (lrow : loc) (row : dict),
    catalog st1 = (catalog st ++ [lrow])%list /\
    lrow <> l /\
    dict_get col row = Some (VRef l) /\
    heap st1 !! lrow = Some (ODict row) /\
    <[l := o]> (heap st1) !! lrow = Some (ODict row) /\
    <[l := o]> (heap st1) !! l = Some o.
Proof.
  intros Hform Hin Hget Hl Hadd.
  apply add_to_catalog_inv in Hadd. destruct Hadd as (row & Hrow & ->).
  set (lrow := fresh (dom (heap st))).
  assert (Hne : lrow <> l).
  { intros Heq. apply (is_fresh (dom (heap st))). fold lrow. rewrite Heq. exact Hl. }
  exists lrow, row. cbn [heap catalog].
  split; [reflexivity|]. split; [exact Hne|]. split; [|split; [|split]].
  - rewrite (to_catalog_row_copies _ _ _ _ _ _ Hform Hrow Hin).
    unfold get_default. rewrite Hget. reflexivity.
  - apply lookup_insert_eq.
  - rewrite lookup_insert_ne by congruence. apply lookup_insert_eq.
  - apply lookup_insert_eq.
Qed.

Lemma container_field_shared_witness :
  exists (st1 : session) (lrow : loc) (row : dict),
    add_to_catalog {| heap := shared_heap; catalog := [] |} (VRef 1%positive) = Ok st1 /\
    catalog st1 = ([] ++ [lrow])%list /\
    lrow <> 2%positive /\
    dict_get "Notes" row = Some (VRef 2%positive) /\
    heap st1 !! lrow = Some (ODict row) /\
    <[2%positive := OList [VStr "first"; VStr "second"]]> (heap st1) !! lrow
    = Some (ODict row) /\
    <[2%positive := OList [VStr "first"; VStr "second"]]> (heap st1) !! 2%positive
    = Some (OList [VStr "first"; VStr "second"]).
Proof.
  eexists.
  assert (H : add_to_catalog {| heap := shared_heap; catalog := [] |} (VRef 1%positive)
              = Ok _) by (vm_compute; reflexivity).
  assert (Hl : 2%positive ∈ dom shared_heap)
    by (apply elem_of_dom; eexists; vm_compute; reflexivity).
  assert (Hin : ("notes", "Notes") ∈ COPIED_FIELDS) by (unfold COPIED_FIELDS; in_list).
  destruct (container_field_shared {| heap := shared_heap; catalog := [] |} _
              (VRef 1%positive) shared_form "notes" "Notes" 2%positive
              (OList [VStr "first"; VStr "second"]) eq_refl Hin eq_refl Hl H)
    as (lrow & row & Hrest).
  exists lrow, row. split; [exact H | exact Hrest].
Defined.

End CatalogFacts.

(** ** The specification the form builds (lines 260-334) *)

Module Form.
Import Rubric Catalog CatalogFacts.
Local Open Scope string_scope.

(** What the widgets of [create_test_form] return in one run.  A chosen
    date is carried as its ISO text, [None] when no date is chosen; the
    sliders and the check boxes are read by label. *)
Record widgets : Type := {
  w_test_id : string;
  w_test_name : string;
  w_hypothesis : string;
  w_primary_kpi : string;
  w_secondary_kpis : list string;
  w_weekly_sessions : Z;
  w_baseline_cr : Q;
  w_baseline_sample_size : Z;
  w_funnel_stage : string;
  w_page_urls : string;
  w_audience_placement : string;
  w_test_types : list string;
  w_variant_summary : string;
  w_slider : string -> Z;
  w_notes : string;
  w_owner : string;
  w_status : string;
  w_ready_for_dev : bool;
  w_start_date : option string;
  w_end_date : option string;
  w_checkbox : string -> bool
}.

(** Lines 300-306. *)
Definition check_labels : list string :=
  ["Analytics events are defined (Primary + Secondary KPIs)";
   "Experiment scoping and exclusion rules defined";
   "QA plan documented";
   "Variant specs / mockups attached or linked";
   "Rollout/rollback plan defined"].

(** A new object, at a location not in use. *)
Definition alloc (h : gmap loc obj) (o : obj) : gmap loc obj * loc :=
  let l := fresh (dom h) in (<[l := o]> h, l).

(** Lines 285-288: [easier_scores[comp] = st.slider(comp, 1, 5, 3)]. *)
Definition easier_scores (w : widgets) : dict :=
  foldl (fun d comp => dict_set comp (VInt (w_slider w comp)) d) [] EASIER_COMPONENTS.

(** Lines 307-310. *)
Definition ready_checks (w : widgets) : dict :=
  foldl (fun d label => dict_set label (VBool (w_checkbox w label)) d) [] check_labels.

(** Lines 311-333, the nested containers given by their locations. *)
Definition form_dict (w : widgets) (l_secondary l_types l_easier l_checks : loc) : dict :=
  [("test_id", VStr (strip (w_test_id w)));
   ("test_name", VStr (strip (w_test_name w)));
   ("hypothesis", VStr (strip (w_hypothesis w)));
   ("primary_kpi", VStr (w_primary_kpi w));
   ("secondary_kpis", VRef l_secondary);
   ("weekly_sessions",
    VInt (if (w_weekly_sessions w =? 0)%Z then 0%Z else w_weekly_sessions w));
   ("baseline_cr",
    VFloat (if Qeq_bool (w_baseline_cr w) 0 then 0%Q else w_baseline_cr w));
   ("baseline_sample_size",
    VInt (if (w_baseline_sample_size w =? 0)%Z then 0%Z else w_baseline_sample_size w));
   ("funnel_stage", VStr (w_funnel_stage w));
   ("page_urls", VStr (strip (w_page_urls w)));
   ("audience_placement", VStr (strip (w_audience_placement w)));
   ("test_types", VRef l_types);
   ("variant_summary", VStr (strip (w_variant_summary w)));
   ("easier", VRef l_easier);
   ("notes", VStr (strip (w_notes w)));
   ("owner", VStr (strip (w_owner w)));
   ("status", VStr (w_status w));
   ("ready_for_dev", VBool (w_ready_for_dev w));
   ("ready_checks", VRef l_checks);
   ("start_date", VStr (default "" (w_start_date w)));
   ("end_date", VStr (default "" (w_end_date w)))].

(** The objects of one run of the form, and the specification returned. *)
Definition create_test_form (h : gmap loc obj) (w : widgets) : gmap loc obj * val :=
  let '(h1, l_secondary) := alloc h (OList (VStr <$> w_secondary_kpis w)) in
  let '(h2, l_types) := alloc h1 (OList (VStr <$> w_test_types w)) in
  let '(h3, l_easier) := alloc h2 (ODict (easier_scores w)) in
  let '(h4, l_checks) := alloc h3 (ODict (ready_checks w)) in
  let '(h5, l_data) :=
    alloc h4 (ODict (form_dict w l_secondary l_types l_easier l_checks)) in
  (h5, VRef l_data).

(** The sum of the six sliders. *)
Definition slider_sum (w : widgets) : Z :=
  (w_slider w "Evidence" + w_slider w "Alignment" + w_slider w "Speed"
   + w_slider w "Impact" + w_slider w "Effort" + w_slider w "Reality")%Z.

(** A run of the form with its defaults but for the identifier, two
    KPIs and one test type. *)
Definition sample_widgets : widgets :=
  {| w_test_id := " T-3 "; w_test_name := "Sticky CTA"; w_hypothesis := "";
     w_primary_kpi := "RTA Form Completes (Lead Form Submits)";
     w_secondary_kpis := ["Phone Clicks"; "Bounce Rate"];
     w_weekly_sessions := 0; w_baseline_cr := 0; w_baseline_sample_size := 0;
     w_funnel_stage := "Conversion"; w_page_urls := ""; w_audience_placement := "";
     w_test_types := ["CTA Styling"]; w_variant_summary := "";
     w_slider := fun _ => 3%Z; w_notes := ""; w_owner := ""; w_status := "Proposed";
     w_ready_for_dev := false; w_start_date := None; w_end_date := None;
     w_checkbox := fun _ => false |}.

(** *** The objects of a run *)

Lemma alloc_inv h o h' l :
  alloc h o = (h', l) ->
  h' !! l = Some o /\
  (forall l' x, h !! l' = Some x -> h' !! l' = Some x) /\
  (forall l', l' ∈ dom h -> h' !! l' = h !! l').
Proof.
  unfold alloc. intros [= <- <-].
  assert (Hf : h !! fresh (dom h) = None) by (apply not_elem_of_dom, is_fresh).
  split; [apply lookup_insert_eq|]. split.
  - intros l' x Hx. rewrite lookup_insert_ne; [exact Hx|]. congruence.
  - intros l' Hl'. apply elem_of_dom in Hl'. destruct Hl' as [x Hx].
    rewrite lookup_insert_ne; [reflexivity|]. congruence.
Qed.

Lemma alloc_dom h o h' l : alloc h o = (h', l) -> dom h ⊆ dom h'.
Proof. unfold alloc. intros [= <- <-]. rewrite dom_insert_L. set_solver. Qed.

Lemma easier_scores_eq w :
  easier_scores w
  = [("Evidence", VInt (w_slider w "Evidence"));
     ("Alignment", VInt (w_slider w "Alignment"));
     ("Speed", VInt (w_slider w "Speed"));
     ("Impact", VInt (w_slider w "Impact"));
     ("Effort", VInt (w_slider w "Effort"));
     ("Reality", VInt (w_slider w "Reality"))].
Proof. reflexivity. Qed.

Lemma create_test_form_objects h w :
  exists (l1 l2 l3 l4 l5 : loc) (h' : gmap loc obj),
    create_test_form h w = (h', VRef l5) /\
    h' !! l5 = Some (ODict (form_dict w l1 l2 l3 l4)) /\
    h' !! l3 = Some (ODict (easier_scores w)) /\
    h' !! l1 = Some (OList (VStr <$> w_secondary_kpis w)) /\
    h' !! l2 = Some (OList (VStr <$> w_test_types w)) /\
    (forall l, l ∈ dom h -> h' !! l = h !! l).
Proof.
  unfold create_test_form.
  destruct (alloc h (OList (VStr <$> w_secondary_kpis w))) as [h1 l1] eqn:E1.
  destruct (alloc h1 (OList (VStr <$> w_test_types w))) as [h2 l2] eqn:E2.
  destruct (alloc h2 (ODict (easier_scores w))) as [h3 l3] eqn:E3.
  destruct (alloc h3 (ODict (ready_checks w))) as [h4 l4] eqn:E4.
  destruct (alloc h4 (ODict (form_dict w l1 l2 l3 l4))) as [h5 l5] eqn:E5.
  pose proof (alloc_dom _ _ _ _ E1) as D1. pose proof (alloc_dom _ _ _ _ E2) as D2.
  pose proof (alloc_dom _ _ _ _ E3) as D3. pose proof (alloc_dom _ _ _ _ E4) as D4.
  apply alloc_inv in E1, E2, E3, E4, E5.
  destruct E1 as (N1 & K1 & F1). destruct E2 as (N2 & K2 & F2).
  destruct E3 as (N3 & K3 & F3). destruct E4 as (N4 & K4 & F4).
  destruct E5 as (N5 & K5 & F5).
  exists l1, l2, l3, l4, l5, h5. split; [reflexivity|].
  split; [exact N5|]. split; [auto|]. split; [auto|]. split; [auto|].
  intros l Hl.
  rewrite F5 by set_solver. rewrite F4 by set_solver.
  rewrite F3 by set_solver. rewrite F2 by set_solver. apply F1, Hl.
Qed.

Lemma rubric_values_inline w k v :
  dict_get k (easier_scores w) = Some v -> exists z, v = VInt z.
Proof.
  rewrite easier_scores_eq. cbn [dict_get].
  repeat (match goal with
          | |- context [String.eqb k ?s] => destruct (String.eqb k s)
          end; [intros [= <-]; eauto|]).
  discriminate.
Qed.

Lemma created_form_well_formed h w h' fd :
  create_test_form h w = (h', fd) -> well_formed_spec h' fd /\ scalars_inline h' fd.
Proof.
  intros Hc.
  destruct (create_test_form_objects h w) as (l1 & l2 & l3 & l4 & l5 & h'' & Hc' & H5 & H3 & H1 & H2 & _).
  rewrite Hc in Hc'. injection Hc' as <- ->.
  assert (Hform : as_dict h' (VRef l5) = Ok (form_dict w l1 l2 l3 l4))
    by (cbn [as_dict]; rewrite H5; reflexivity).
  assert (Heasier : get_dict h' (form_dict w l1 l2 l3 l4) "easier" = Ok (easier_scores w))
    by (unfold get_dict; cbn [form_dict dict_get String.eqb Ascii.eqb Bool.eqb as_dict];
        rewrite H3; reflexivity).
  split.
  - exists (form_dict w l1 l2 l3 l4), (easier_scores w).
    split; [exact Hform|]. split; [exact Heasier|]. split; [|split].
    + intros k Hk. unfold EASIER_COMPONENTS in Hk.
      repeat (apply elem_of_cons in Hk; destruct Hk as [-> | Hk]; [eexists; reflexivity|]).
      inversion Hk.
    + right. exists l1, (w_secondary_kpis w). split; [reflexivity | exact H1].
    + right. exists l2, (w_test_types w). split; [reflexivity | exact H2].
  - intros form Hform'. rewrite Hform in Hform'. injection Hform' as <-. split.
    + intros k v Hk Hv. unfold SCALAR_FIELDS in Hk.
      repeat (apply elem_of_cons in Hk; destruct Hk as [-> | Hk];
              [cbn in Hv; injection Hv as <-; reflexivity|]).
      inversion Hk.
    + intros easier k v He Hv. rewrite Heasier in He. injection He as <-.
      destruct (rubric_values_inline w k v Hv) as [z ->]. reflexivity.
Qed.

(** X13. A specification built by the form can always be appended:
    normalising it never raises, its row holds no reference to any
    object, and building it changes no object that existed before (the
    rows of the catalog among them). *)
Theorem created_form_appends (st : session) (w : widgets) :
  exists (h' : gmap loc obj) (fd : val) (row : dict) (st' : session),
    create_test_form (heap st) w = (h', fd) /\
    to_catalog_row h' fd = Ok row /\
    add_to_catalog {| heap := h'; catalog := catalog st |} fd = Ok st' /\
    Forall (fun kv => is_ref kv.2 = false) row /\
    (forall l, l ∈ dom (heap st) -> h' !! l = heap st !! l).
Proof.
  destruct (create_test_form (heap st) w) as [h' fd] eqn:Hc.
  destruct (created_form_well_formed _ _ _ _ Hc) as [Hwf Hsc].
  destruct (to_catalog_row_succeeds _ _ Hwf) as [row Hrow].
  destruct (add_to_catalog_succeeds {| heap := h'; catalog := catalog st |} fd Hwf)
    as [st' Hadd].
  exists h', fd, row, st'. split; [reflexivity|]. split; [exact Hrow|].
  split; [exact Hadd|]. split; [exact (to_catalog_row_inline _ _ _ Hrow Hsc)|].
  destruct (create_test_form_objects (heap st) w)
    as (l1 & l2 & l3 & l4 & l5 & h'' & Hc' & _ & _ & _ & _ & Hframe).
  rewrite Hc in Hc'. injection Hc' as <- _. exact Hframe.
Qed.

(** *** The row of a built specification *)

Lemma created_form_cells h w h' fd :
  create_test_form h w = (h', fd) ->
  exists row,
    to_catalog_row h' fd = Ok row /\
    dict_get "EASIER Total" row = Some (VInt (slider_sum w)) /\
    dict_get "Secondary KPIs" row = Some (VStr (join ", " (w_secondary_kpis w))) /\
    dict_get "Test Type" row = Some (VStr (join ", " (w_test_types w))) /\
    dict_get "Test ID" row = Some (VStr (strip (w_test_id w))).
Proof.
  intros Hc.
  destruct (create_test_form_objects h w)
    as (l1 & l2 & l3 & l4 & l5 & h'' & Hc' & H5 & H3 & H1 & H2 & _).
  rewrite Hc in Hc'. injection Hc' as <- ->.
  unfold to_catalog_row, easier_cell, get_dict, join_field, iter_strings.
  cbn [as_dict]. rewrite H5. cbn [mbind result_bind].
  cbn [form_dict dict_get String.eqb Ascii.eqb Bool.eqb as_dict].
  rewrite H3, H1, H2, !str_items_strings. cbn [mbind result_bind].
  unfold easier_total, EASIER_COMPONENTS. rewrite easier_scores_eq.
  cbn [sum_coerced get_default dict_get String.eqb Ascii.eqb Bool.eqb default
       from_option py_int mbind result_bind].
  eexists. split; [reflexivity|].
  cbn [dict_get String.eqb Ascii.eqb Bool.eqb].
  split; [|repeat split]. unfold slider_sum, Datatypes.id. do 2 f_equal.
Qed.

(** X14. In the row of a specification built by the form, the total is
    the sum of the six sliders; with every slider between 1 and 5, as the
    widget keeps it, the total lies between 6 and 30. *)
Theorem created_form_total_range (h : gmap loc obj) (w : widgets)
    (h' : gmap loc obj) (fd : val) :
  (forall comp, comp ∈ EASIER_COMPONENTS -> (1 <= w_slider w comp <= 5)%Z) ->
  create_test_form h w = (h', fd) ->
  exists (row : dict) (total : Z),
    to_catalog_row h' fd = Ok row /\
    dict_get "EASIER Total" row = Some (VInt total) /\
    total = slider_sum w /\ (6 <= total <= 30)%Z.
Proof.
  intros Hrange Hc.
  destruct (created_form_cells _ _ _ _ Hc) as (row & Hrow & Htotal & _).
  exists row, (slider_sum w). split; [exact Hrow|]. split; [exact Htotal|].
  split; [reflexivity|]. unfold slider_sum.
  pose proof (Hrange "Evidence" ltac:(unfold EASIER_COMPONENTS; in_list)).
  pose proof (Hrange "Alignment" ltac:(unfold EASIER_COMPONENTS; in_list)).
  pose proof (Hrange "Speed" ltac:(unfold EASIER_COMPONENTS; in_list)).
  pose proof (Hrange "Impact" ltac:(unfold EASIER_COMPONENTS; in_list)).
  pose proof (Hrange "Effort" ltac:(unfold EASIER_COMPONENTS; in_list)).
  pose proof (Hrange "Reality" ltac:(unfold EASIER_COMPONENTS; in_list)).
  lia.
Qed.

(** X15. From the form to the re-export: when the selections of the two
    multiselect widgets come from their option lists, as the widgets
    ensure, the two joined cells of the row split back into exactly the
    selections, in order. *)
Theorem created_form_lists_roundtrip (h : gmap loc obj) (w : widgets)
    (h' : gmap loc obj) (fd : val) :
  Forall (fun k => k ∈ SECONDARY_KPIS) (w_secondary_kpis w) ->
  Forall (fun t => t ∈ TEST_TYPES) (w_test_types w) ->
  create_test_form h w = (h', fd) ->
  exists (row : dict) (kpi_cell type_cell : string),
    to_catalog_row h' fd = Ok row /\
    dict_get "Secondary KPIs" row = Some (VStr kpi_cell) /\
    dict_get "Test Type" row = Some (VStr type_cell) /\
    resplit kpi_cell = w_secondary_kpis w /\
    resplit type_cell = w_test_types w.
Proof.
  intros Hk Ht Hc.
  destruct (created_form_cells _ _ _ _ Hc) as (row & Hrow & _ & Hkc & Htc & _).
  exists row, (join ", " (w_secondary_kpis w)), (join ", " (w_test_types w)).
  split; [exact Hrow|]. split; [exact Hkc|]. split; [exact Htc|].
  assert (Hclean : forall (opts sel : list string),
             forallb clean opts = true -> Forall (fun x => x ∈ opts) sel ->
             forallb clean sel = true).
  { intros opts sel Ho Hs. apply forallb_forall. intros x Hx.
    rewrite Forall_forall in Hs. apply list_elem_of_In in Hx. specialize (Hs x Hx).
    rewrite forallb_forall in Ho. apply Ho, list_elem_of_In, Hs. }
  split; apply resplit_join.
  - exact (Hclean _ _ secondary_kpis_clean Hk).
  - exact (Hclean _ _ test_types_clean Ht).
Qed.

Lemma created_form_total_range_witness :
  exists (row : dict) (total : Z),
    to_catalog_row (create_test_form ∅ sample_widgets).1
                   (create_test_form ∅ sample_widgets).2 = Ok row /\
    dict_get "EASIER Total" row = Some (VInt total) /\
    total = slider_sum sample_widgets /\ (6 <= total <= 30)%Z.
Proof.
  apply (created_form_total_range ∅ sample_widgets).
  - intros comp _. cbn. lia.
  - destruct (create_test_form ∅ sample_widgets); reflexivity.
Defined.

Lemma created_form_lists_roundtrip_witness :
  exists (row : dict) (kpi_cell type_cell : string),
    to_catalog_row (create_test_form ∅ sample_widgets).1
                   (create_test_form ∅ sample_widgets).2 = Ok row /\
    dict_get "Secondary KPIs" row = Some (VStr kpi_cell) /\
    dict_get "Test Type" row = Some (VStr type_cell) /\
    resplit kpi_cell = w_secondary_kpis sample_widgets /\
    resplit type_cell = w_test_types sample_widgets.
Proof.
  apply (created_form_lists_roundtrip ∅ sample_widgets).
  - repeat constructor; unfold SECONDARY_KPIS; in_list.
  - repeat constructor; unfold TEST_TYPES; in_list.
  - destruct (create_test_form ∅ sample_widgets); reflexivity.
Defined.

End Form.
